(** * Databricks custom MCP server example: test harness and exploratory script

    A shallow embedding of [tests/test_integration_server.py] (the pytest
    fixture that starts the server under test, waits for it and tears it
    down) and of [scripts/dev/query_remote.py] (the exploratory script),
    with the properties the design specification states about them.

    Conventions of the embedding:
    - wall-clock time is an integer number of milliseconds ([Z]); the
      durations of the blocking calls are supplied by the environment;
    - a Python exception caught by [except Exception] is a value of [exn];
    - a local variable that may be unbound is an [option];
    - everything outside the interpreter (the network, the operating
      system, the remote client) is an explicit environment argument. *)

From Stdlib Require Import ZArith NArith List String Ascii Bool Lia Arith.
From Stdlib Require Import DecimalString DecimalPos DecimalZ.
Import ListNotations.

Local Open Scope string_scope.
Local Open Scope Z_scope.

(** ** Python values shared by both files *)

(** An instance of a subclass of [Exception].  [exc_truthy] is the result of
    [bool(e)]: [True] for every class that defines neither [__bool__] nor
    [__len__], which is the case of every exception class of the standard
    library and of [requests]. *)
Record exn : Type := mkExn {
  exc_class : string;
  exc_msg : string;
  exc_truthy : bool
}.

(** [str(n)] for a Python [int]. *)
Definition str_int (n : Z) : string := NilZero.string_of_int (Z.to_int n).

Definition TimeoutError (msg : string) : exn := mkExn "TimeoutError" msg true.
Definition UnboundLocalError (var : string) : exn :=
  mkExn "UnboundLocalError"
        ("cannot access local variable '" ++ var
         ++ "' where it is not associated with a value") true.
Definition AssertionError (msg : string) : exn := mkExn "AssertionError" msg true.

Definition is_TimeoutError (e : exn) : bool :=
  String.eqb (exc_class e) "TimeoutError".

Module Harness.

(** ** [_wait_for_server_startup] *)

(** What [requests.get] hands back: only the status code is inspected. *)
Record response : Type := mkResponse {
  status_code : Z;
  body : string
}.

Inductive get_result : Type :=
| Responds (r : response)
| Raises (e : exn).

(** One iteration of the polling loop as the environment decides it: how long
    [requests.get(url, timeout=1)] blocks, what it produces, and by how much
    [time.sleep(0.1)] oversleeps (it never sleeps less than asked). *)
Record attempt : Type := mkAttempt {
  get_ms : N;
  get_outcome : get_result;
  oversleep_ms : N
}.

(** The network as seen by the loop: the outcome of the n-th request. *)
Definition network : Type := nat -> attempt.

Definition sleep_interval_ms : Z := 100.

(** How the call ends, by the statement that ends it. *)
Inductive outcome : Type :=
| Returned (r : response)          (* line 27: return response *)
| Reraised (e : exn)               (* line 32: raise last_exc *)
| UnboundLocal                     (* line 31: last_exc read while unbound *)
| TimedOut (msg : string).         (* line 34: raise TimeoutError(...) *)

Definition timeout_message (url : string) (timeout : Z) : string :=
  "Server at " ++ url ++ " did not respond in " ++ str_int timeout ++ " seconds".

(** The exception that reaches the caller, if the call raises. *)
Definition raised (url : string) (timeout : Z) (o : outcome) : option exn :=
  match o with
  | Returned _ => None
  | Reraised e => Some e
  | UnboundLocal => Some (UnboundLocalError "last_exc")
  | TimedOut msg => Some (TimeoutError msg)
  end.

Definition success_status (r : response) : bool :=
  (200 <=? status_code r) && (status_code r <? 400).

(** Lines 31-34, reached when the loop test fails: [if last_exc: raise
    last_exc], then the generic [TimeoutError]. *)
Definition after_loop (url : string) (timeout : Z) (last_exc : option exn)
    : outcome :=
  match last_exc with
  | None => UnboundLocal
  | Some e =>
      if exc_truthy e then Reraised e
      else TimedOut (timeout_message url timeout)
  end.

(** The [while] loop and the code after it.  [i] counts the requests made so
    far, [now] is what [time.time()] returns at the loop test, [last_exc] is
    [None] while the local variable is unbound.  [fuel] bounds the number of
    loop tests; [None] means the bound was reached. *)
Fixpoint wait_loop (fuel : nat) (url : string) (timeout : Z) (net : network)
    (i : nat) (now deadline : Z) (last_exc : option exn) : option outcome :=
  match fuel with
  | O => None
  | S fuel' =>
    if now <? deadline then
      let a := net i in
      let after_get := now + Z.of_N (get_ms a) in
      let after_sleep := after_get + sleep_interval_ms + Z.of_N (oversleep_ms a) in
      match get_outcome a with
      | Responds r =>
          if success_status r then Some (Returned r)
          else wait_loop fuel' url timeout net (S i) after_sleep deadline last_exc
      | Raises e =>
          wait_loop fuel' url timeout net (S i) after_sleep deadline (Some e)
      end
    else Some (after_loop url timeout last_exc)
  end.

(** [_wait_for_server_startup(url, timeout)] entered when the clock reads
    [start]; [timeout] is in seconds. *)
Definition _wait_for_server_startup (fuel : nat) (net : network) (start : Z)
    (url : string) (timeout : Z) : option outcome :=
  let deadline := start + timeout * 1000 in
  wait_loop fuel url timeout net 0 start deadline None.

(** Loop tests that are always enough for a given timeout: every iteration
    that does not return moves the clock by at least the sleep interval. *)
Definition enough_fuel (timeout : Z) : nat :=
  S (Z.to_nat (timeout * 1000 / sleep_interval_ms + 1)).

(** *** The schedule of the polling loop, read off the environment *)

(** What the clock reads when the loop test is evaluated for the i-th time,
    provided no earlier request returned. *)
Fixpoint clock_at (net : network) (start : Z) (i : nat) : Z :=
  match i with
  | O => start
  | S j =>
      clock_at net start j + Z.of_N (get_ms (net j)) + sleep_interval_ms
      + Z.of_N (oversleep_ms (net j))
  end.

Definition succeeds (a : attempt) : bool :=
  match get_outcome a with
  | Responds r => success_status r
  | Raises _ => false
  end.

(** The exception of the most recent raising request among the first [n]. *)
Fixpoint last_raised (net : network) (n : nat) : option exn :=
  match n with
  | O => None
  | S k =>
      match get_outcome (net k) with
      | Raises e => Some e
      | Responds _ => last_raised net k
      end
  end.

(** Request [i] is made: the deadline has not passed when the loop test is
    evaluated for the i-th time and no earlier request ended the loop. *)
Definition polled (net : network) (start deadline : Z) (i : nat) : Prop :=
  clock_at net start i < deadline /\
  forall j, (j < i)%nat -> succeeds (net j) = false.

(** The loop gives up after [n] requests, none of them a success. *)
Definition gives_up_after (net : network) (start deadline : Z) (n : nat) : Prop :=
  deadline <= clock_at net start n /\
  forall j, (j < n)%nat ->
    clock_at net start j < deadline /\ succeeds (net j) = false.

(** ** The fixture [run_mcp_server] *)

Inductive signal : Type := SIGTERM | SIGKILL.

(** Calls that leave the interpreter, in the order they are made. *)
Inductive event : Type :=
| EvFindFreePort
| EvPopen (cmd : list string) (preexec_setsid : bool)
| EvWaitForStartup (url : string) (timeout : Z)
| EvTerminate (pid : Z)
| EvKillpg (pgid : Z) (sig : signal)
| EvWait (pid : Z) (timeout : Z).

(** The operating system and the network, as the fixture meets them. *)
Record os_env : Type := mkEnv {
  os_free_port : exn + Z;
  os_popen : list string -> exn + Z;
  os_net : network;
  os_clock : Z;
  os_terminate : Z -> option exn;
  os_killpg : Z -> signal -> option exn;
  os_wait : Z -> Z -> option exn
}.

Inductive result (A : Type) : Type :=
| Val (a : A)
| Exc (e : exn)
| OutOfFuel.
Arguments Val {A} a.
Arguments Exc {A} e.
Arguments OutOfFuel {A}.

(** Computations of the fixture: they read the environment, append to the
    log of events and end with a value or an exception. *)
Definition M (A : Type) : Type := os_env -> list event -> result A * list event.

Definition ret {A} (a : A) : M A := fun _ log => (Val a, log).

Definition raise {A} (e : exn) : M A := fun _ log => (Exc e, log).

Definition bind {A B} (m : M A) (k : A -> M B) : M B :=
  fun env log =>
    match m env log with
    | (Val a, log') => k a env log'
    | (Exc e, log') => (Exc e, log')
    | (OutOfFuel, log') => (OutOfFuel, log')
    end.

(** [try: m  except Exception as e: h e] *)
Definition try_except {A} (m : M A) (h : exn -> M A) : M A :=
  fun env log =>
    match m env log with
    | (Exc e, log') => h e env log'
    | r => r
    end.

(** [try: m  finally: f]: [f] runs on both exits of [m]; an exception of [f]
    replaces the pending one. *)
Definition try_finally {A} (m : M A) (f : M unit) : M A :=
  fun env log =>
    match m env log with
    | (OutOfFuel, log') => (OutOfFuel, log')
    | (r, log') =>
        match f env log' with
        | (Val _, log'') => (r, log'')
        | (Exc e, log'') => (Exc e, log'')
        | (OutOfFuel, log'') => (OutOfFuel, log'')
        end
    end.

Declare Scope harness_scope.
Delimit Scope harness_scope with harness.
Notation "x <- m ;; k" := (bind m (fun x => k))
  (at level 61, m at next level, right associativity) : harness_scope.
Notation "m ;; k" := (bind m (fun _ => k))
  (at level 61, right associativity) : harness_scope.
Local Open Scope harness_scope.

Definition of_status (st : option exn) : result unit :=
  match st with
  | None => Val tt
  | Some e => Exc e
  end.

Definition _find_free_port : M Z :=
  fun env log =>
    (match os_free_port env with inl e => Exc e | inr p => Val p end,
     (log ++ [EvFindFreePort])%list).

(** [subprocess.Popen(cmd, ..., preexec_fn=os.setsid)]: returns the child's
    pid as soon as the child is created. *)
Definition Popen (cmd : list string) : M Z :=
  fun env log =>
    (match os_popen env cmd with inl e => Exc e | inr pid => Val pid end,
     (log ++ [EvPopen cmd true])%list).

Definition proc_terminate (pid : Z) : M unit :=
  fun env log => (of_status (os_terminate env pid), (log ++ [EvTerminate pid])%list).

Definition killpg (pgid : Z) (sig : signal) : M unit :=
  fun env log => (of_status (os_killpg env pgid sig), (log ++ [EvKillpg pgid sig])%list).

Definition proc_wait (pid : Z) (timeout : Z) : M unit :=
  fun env log => (of_status (os_wait env pid timeout), (log ++ [EvWait pid timeout])%list).

(** The call [_wait_for_server_startup(url)] made by the fixture, with the
    default timeout of 10 seconds. *)
Definition default_timeout : Z := 10.

Definition of_outcome (o : outcome) : result response :=
  match o with
  | Returned r => Val r
  | Reraised e => Exc e
  | UnboundLocal => Exc (UnboundLocalError "last_exc")
  | TimedOut msg => Exc (TimeoutError msg)
  end.

Definition wait_for_startup (fuel : nat) (url : string) : M response :=
  fun env log =>
    (match _wait_for_server_startup fuel (os_net env) (os_clock env) url
             default_timeout with
     | None => OutOfFuel
     | Some o => of_outcome o
     end,
     (log ++ [EvWaitForStartup url default_timeout])%list).

(** [shlex.split] on a string without quotes, backslashes or comment
    characters: the maximal runs of non-blank characters. *)
Definition is_blank (c : ascii) : bool :=
  (Ascii.eqb c " " || Ascii.eqb c "009" || Ascii.eqb c "010" || Ascii.eqb c "013")%char.

Fixpoint tokens (cur : option string) (s : string) : list string :=
  match s with
  | EmptyString =>
      match cur with
      | Some t => [t]
      | None => []
      end
  | String c s' =>
      if is_blank c then
        match cur with
        | Some t => t :: tokens None s'
        | None => tokens None s'
        end
      else
        tokens (Some (match cur with
                      | Some t => t ++ String c EmptyString
                      | None => String c EmptyString
                      end)) s'
  end.

Definition shlex_split (s : string) : list string := tokens None s.

Definition host : string := "127.0.0.1".

(** The fixture up to its [yield]: the value is the yielded url together
    with the pid kept in the generator's frame. *)
Definition run_mcp_server_setup (fuel : nat) : M (string * Z) :=
  port <- _find_free_port ;;
  let url := "http://" ++ host ++ ":" ++ str_int port in
  let cmd := shlex_split ("uv run custom-mcp-server --port " ++ str_int port) in
  proc <- Popen cmd ;;
  try_except (wait_for_startup fuel url)
             (fun e => proc_terminate proc ;; raise e) ;;
  ret (url, proc).

(** The fixture after its [yield]. *)
Definition run_mcp_server_teardown (proc : Z) : M unit :=
  try_finally
    (try_except (killpg proc SIGTERM ;; proc_wait proc 10)
                (fun _ => killpg proc SIGKILL))
    (proc_wait proc 5).

Fixpoint no_blank (s : string) : bool :=
  match s with
  | EmptyString => true
  | String c s' => negb (is_blank c) && no_blank s'
  end.

(** The command line the fixture builds for a port. *)
Definition server_command (port : Z) : list string :=
  ["uv"; "run"; "custom-mcp-server"; "--port"; str_int port].

Definition server_url (port : Z) : string := "http://127.0.0.1:" ++ str_int port.

(** Whether the [try] block of the teardown (SIGTERM, then the 10-second
    wait) raised, which is when the [except] block runs. *)
Definition graceful_step_failed (env : os_env) (proc : Z) : bool :=
  match os_killpg env proc SIGTERM with
  | Some _ => true
  | None =>
      match os_wait env proc 10 with
      | Some _ => true
      | None => false
      end
  end.

(** ** Scenarios *)

Definition connection_refused : exn :=
  mkExn "ConnectionError" "Connection refused" true.

Definition timeout_expired : exn :=
  mkExn "TimeoutExpired" "Command timed out" true.

Definition process_lookup_error : exn :=
  mkExn "ProcessLookupError" "No such process" true.

Definition demo_url : string := "http://127.0.0.1:8000".

(** The port is never bound: every request is refused after 2 ms. *)
Definition refused_net : network :=
  fun _ => mkAttempt 2 (Raises connection_refused) 0.

(** The server answers at once, always with 503. *)
Definition unavailable_net : network :=
  fun _ => mkAttempt 5 (Responds (mkResponse 503 "starting")) 1.

Definition ready_response : response := mkResponse 200 "ok".

(** Refused three times, 503 once, then ready. *)
Definition slow_start_net : network :=
  fun i =>
    if (i <? 3)%nat then mkAttempt 2 (Raises connection_refused) 0
    else if (i =? 3)%nat then mkAttempt 5 (Responds (mkResponse 503 "starting")) 0
    else mkAttempt 5 (Responds ready_response) 0.

(** Everything works: port 8000, pid 4242, the server is ready at the fifth
    request. *)
Definition healthy_env : os_env :=
  mkEnv (inr 8000) (fun _ => inr 4242) slow_start_net 0
        (fun _ => None) (fun _ _ => None) (fun _ _ => None).

(** The server never binds its port. *)
Definition never_ready_env : os_env :=
  mkEnv (inr 8000) (fun _ => inr 4242) refused_net 0
        (fun _ => None) (fun _ _ => None) (fun _ _ => None).

(** The server ignores every signal: both waits time out. *)
Definition stuck_env : os_env :=
  mkEnv (inr 8000) (fun _ => inr 4242) slow_start_net 0
        (fun _ => None) (fun _ _ => None) (fun _ _ => Some timeout_expired).

(** The process group is gone: signals cannot be delivered. *)
Definition gone_env : os_env :=
  mkEnv (inr 8000) (fun _ => inr 4242) slow_start_net 0
        (fun _ => None) (fun _ _ => Some process_lookup_error) (fun _ _ => None).

End Harness.

Module QueryRemote.

(** ** [scripts/dev/query_remote.py] *)

(** The parsed command line ([args] after [parser.parse_args()]). *)
Record arguments : Type := mkArgs {
  arg_host : string;
  arg_token : string;
  arg_app_url : string;
  arg_test_job_id : option Z
}.

(** An entry of [mcp_client.list_tools()]. *)
Record tool : Type := mkTool {
  name : string;
  description : string
}.

(** What [list_tools()] returns: its items in iteration order, whether it is
    a [list] (for [isinstance(tools, list)]) and what [print] shows of it. *)
Record tool_seq : Type := mkToolSeq {
  items : list tool;
  is_list : bool;
  tools_repr : string
}.

(** What [call_tool] returns: the [text] of each element of [content], and
    what [print] shows of the whole result. *)
Record call_result : Type := mkCallResult {
  content : list string;
  repr : string
}.

Definition nl : string := String "010" EmptyString.

Fixpoint repeat_str (s : string) (n : nat) : string :=
  match n with
  | O => EmptyString
  | S k => s ++ repeat_str s k
  end.

Definition rule_eq : string := repeat_str "=" 70.
Definition rule_dash : string := repeat_str "-" 70.

Definition KeyError (k : string) : exn := mkExn "KeyError" ("'" ++ k ++ "'") true.
Definition TypeError (msg : string) : exn := mkExn "TypeError" msg true.
Definition AttributeError (msg : string) : exn := mkExn "AttributeError" msg true.
Definition IndexError (msg : string) : exn := mkExn "IndexError" msg true.

Section Script.

(** Python numbers ([int] and [float]) are not interpreted: the script only
    passes them on, prints them and compares them. *)
Variable number : Type.

(** A document as [json.loads] builds it. *)
#[warnings="-register-all"] Inductive json : Type :=
| JNull
| JBool (b : bool)
| JInt (n : number)
| JFloat (n : number)
| JStr (s : string)
| JArr (l : list json)
| JObj (fields : list (string * json)).

(** The number a numeric literal of the script denotes. *)
Variable literal : string -> number.
(** [x == y], [str(x)] and [bool(n)] of the interpreter. *)
Variable py_eq : json -> json -> bool.
Variable py_str : json -> string.
Variable num_truthy : number -> bool.
(** [json.loads]. *)
Variable json_loads : string -> exn + json.

(** The remote side: the two constructors, [list_tools], and [call_tool],
    whose answer may depend on how many calls were made before. *)
Record remote : Type := mkRemote {
  new_workspace_client : string -> string -> option exn;
  new_mcp_client : string -> option exn;
  remote_list_tools : exn + tool_seq;
  remote_call_tool : nat -> string -> list (string * json) -> exn + call_result
}.

Record state : Type := mkState {
  calls : nat;
  stdout : list string
}.

Definition M (A : Type) : Type := remote -> state -> (exn + A) * state.

Definition ret {A} (a : A) : M A := fun _ st => (inr a, st).

Definition raise {A} (e : exn) : M A := fun _ st => (inl e, st).

Definition bind {A B} (m : M A) (k : A -> M B) : M B :=
  fun env st =>
    match m env st with
    | (inr a, st') => k a env st'
    | (inl e, st') => (inl e, st')
    end.

Notation "x <- m ;; k" := (bind m (fun x => k))
  (at level 61, m at next level, right associativity).
Notation "m ;; k" := (bind m (fun _ => k))
  (at level 61, right associativity).

Definition lift {A} (r : exn + A) : M A := fun _ st => (r, st).

Definition print (line : string) : M unit :=
  fun _ st => (inr tt, mkState (calls st) (stdout st ++ [line])%list).

Definition WorkspaceClient (host token : string) : M unit :=
  fun env st =>
    (match new_workspace_client env host token with
     | Some e => inl e
     | None => inr tt
     end, st).

Definition DatabricksMCPClient (server_url : string) : M unit :=
  fun env st =>
    (match new_mcp_client env server_url with
     | Some e => inl e
     | None => inr tt
     end, st).

Definition list_tools : M tool_seq :=
  fun env st => (remote_list_tools env, st).

Definition call_tool (tool_name : string) (args : list (string * json))
    : M call_result :=
  fun env st =>
    (remote_call_tool env (calls st) tool_name args,
     mkState (S (calls st)) (stdout st)).

Fixpoint for_each {A} (l : list A) (f : A -> M unit) : M unit :=
  match l with
  | [] => ret tt
  | x :: l' => f x ;; for_each l' f
  end.

(** [enumerate(l, start)] *)
Fixpoint enumerate {A} (l : list A) (start : Z) : list (Z * A) :=
  match l with
  | [] => []
  | x :: l' => (start, x) :: enumerate l' (start + 1)
  end.

Fixpoint lookup (k : string) (fields : list (string * json)) : option json :=
  match fields with
  | [] => None
  | (k', v) :: rest => if String.eqb k k' then Some v else lookup k rest
  end.

Definition type_name (j : json) : string :=
  match j with
  | JNull => "NoneType"
  | JBool _ => "bool"
  | JInt _ => "int"
  | JFloat _ => "float"
  | JStr _ => "str"
  | JArr _ => "list"
  | JObj _ => "dict"
  end.

(** [j[k]] for a string key. *)
Definition subscript (j : json) (k : string) : exn + json :=
  match j with
  | JObj fields =>
      match lookup k fields with
      | Some v => inr v
      | None => inl (KeyError k)
      end
  | JArr _ => inl (TypeError "list indices must be integers or slices, not str")
  | JStr _ => inl (TypeError "string indices must be integers, not 'str'")
  | _ => inl (TypeError ("'" ++ type_name j ++ "' object is not subscriptable"))
  end.

(** [j.get(k)] *)
Definition dict_get (j : json) (k : string) : exn + json :=
  match j with
  | JObj fields =>
      match lookup k fields with
      | Some v => inr v
      | None => inr JNull
      end
  | _ => inl (AttributeError
                ("'" ++ type_name j ++ "' object has no attribute 'get'"))
  end.

(** [k in j] *)
Definition contains (j : json) (k : string) : exn + bool :=
  match j with
  | JObj fields =>
      inr (match lookup k fields with Some _ => true | None => false end)
  | JArr l => inr (existsb (fun x => py_eq (JStr k) x) l)
  | JStr s =>
      inr (match String.index 0 k s with Some _ => true | None => false end)
  | _ => inl (TypeError
                ("argument of type '" ++ type_name j ++ "' is not iterable"))
  end.

(** [bool(j)] *)
Definition truthy (j : json) : bool :=
  match j with
  | JNull => false
  | JBool b => b
  | JInt n | JFloat n => num_truthy n
  | JStr s => negb (String.eqb s "")
  | JArr l => match l with [] => false | _ => true end
  | JObj f => match f with [] => false | _ => true end
  end.

(** [result.content[0].text] *)
Definition content0_text (r : call_result) : exn + string :=
  match content r with
  | t :: _ => inr t
  | [] => inl (IndexError "list index out of range")
  end.

Definition skipped_tools : list string := ["add_numbers"; "trigger_job_run"].

Definition in_list (s : string) (l : list string) : bool :=
  existsb (String.eqb s) l.

(** Lines 77-90. *)
Definition step4 (tools : tool_seq) : M unit :=
  print "Step 4: Testing tools without parameters..." ;;
  for_each (items tools) (fun t =>
    if in_list (name t) skipped_tools then ret tt
    else
      print (nl ++ "Testing tool: " ++ name t) ;;
      print rule_dash ;;
      result <- call_tool (name t) [] ;;
      print (repr result) ;;
      print rule_dash) ;;
  print (nl ++ "✓ All parameter-free tools tested successfully") ;;
  print "".

(** The literals of [test_cases]: [a], [b] and [expected]. *)
Definition test_cases : list (string * string * string) :=
  [("5", "3", "8.0"); ("10.5", "2.3", "12.8"); ("-5", "10", "5.0")].

(** Whether a numeric literal denotes an [int]: it is written without a
    fraction and without an exponent, as 5, -5 and 10 are, and 8.0 is not. *)
Definition is_int_literal (s : string) : bool :=
  forallb (fun c => Ascii.eqb c "-" || (Ascii.leb "0" c && Ascii.leb c "9"))%char
          (list_ascii_of_string s).

Definition num (s : string) : json :=
  if is_int_literal s then JInt (literal s) else JFloat (literal s).

(** Lines 102-121: one round of the loop over [test_cases]. *)
Definition add_numbers_case (it : Z * (string * string * string)) : M unit :=
  let '(i, (a, b, expected)) := it in
  print (nl ++ "Test " ++ str_int i ++ ": add_numbers(" ++ py_str (num a)
         ++ ", " ++ py_str (num b) ++ ")") ;;
  result <- call_tool "add_numbers" [("a", num a); ("b", num b)] ;;
  text <- lift (content0_text result) ;;
  result_data <- lift (json_loads text) ;;
  actual <- lift (subscript result_data "result") ;;
  print ("  Expected: " ++ py_str (num expected)) ;;
  print ("  Actual:   " ++ py_str actual) ;;
  if py_eq actual (num expected) then print "  ✓ PASS"
  else
    print "  ✗ FAIL" ;;
    raise (AssertionError ("Expected " ++ py_str (num expected)
                           ++ " but got " ++ py_str actual)).

(** Lines 92-125. *)
Definition step5 : M unit :=
  print "Step 5: Testing add_numbers tool with arguments..." ;;
  print rule_dash ;;
  for_each (enumerate test_cases 1) add_numbers_case ;;
  print rule_dash ;;
  print "✓ add_numbers tool tested successfully" ;;
  print "".

(** [if args.test_job_id:] *)
Definition job_id_given (a : arguments) : option Z :=
  match arg_test_job_id a with
  | Some id => if Z.eqb id 0 then None else Some id
  | None => None
  end.

(** Lines 127-150. *)
Definition step6 (a : arguments) : M unit :=
  match job_id_given a with
  | Some id =>
      print "Step 6: Testing trigger_job_run tool..." ;;
      print rule_dash ;;
      print (nl ++ "Triggering job run for job ID: " ++ str_int id) ;;
      result <- call_tool "trigger_job_run" [("job_id", num (str_int id))] ;;
      text <- lift (content0_text result) ;;
      result_data <- lift (json_loads text) ;;
      success <- lift (dict_get result_data "success") ;;
      (if truthy success then
         print "  ✓ Job triggered successfully!" ;;
         run_id <- lift (dict_get result_data "run_id") ;;
         print ("  Run ID: " ++ py_str run_id) ;;
         has_url <- lift (contains result_data "run_page_url") ;;
         if has_url : bool then
           url <- lift (dict_get result_data "run_page_url") ;;
           print ("  Run URL: " ++ py_str url)
         else ret tt
       else
         print "  ✗ Failed to trigger job" ;;
         err <- lift (dict_get result_data "error") ;;
         print ("  Error: " ++ py_str err)) ;;
      print rule_dash ;;
      print "✓ trigger_job_run tool tested" ;;
      print ""
  | None =>
      print "Step 6: Skipping trigger_job_run test (no --test-job-id provided)" ;;
      print ""
  end.

(** Lines 53-74. *)
Definition steps1to3 (a : arguments) : M tool_seq :=
  print "Step 1: Creating WorkspaceClient with OAuth token..." ;;
  WorkspaceClient (arg_host a) (arg_token a) ;;
  print "✓ WorkspaceClient created successfully" ;;
  print "" ;;
  let mcp_url := arg_app_url a ++ "/mcp" in
  print mcp_url ;;
  print ("Step 2: Connecting to MCP server at " ++ mcp_url ++ "...") ;;
  DatabricksMCPClient mcp_url ;;
  print "✓ MCP client connected successfully" ;;
  print "" ;;
  print "Step 3: Listing available MCP tools..." ;;
  print rule_dash ;;
  tools <- list_tools ;;
  print (tools_repr tools) ;;
  print rule_dash ;;
  print ("✓ Found "
         ++ (if is_list tools then str_int (Z.of_nat (List.length (items tools)))
             else "N/A")
         ++ " tools") ;;
  print "" ;;
  ret tools.

Definition success_banner : list string :=
  [rule_eq; "✓ All Tests Passed!"; rule_eq].

(** Lines 53-125: everything before the optional job trigger. *)
Definition steps1to5 (a : arguments) : M unit :=
  tools <- steps1to3 a ;;
  step4 tools ;;
  step5.

(** The body of the [try] statement, lines 53-154. *)
Definition try_body (a : arguments) : M unit :=
  steps1to5 a ;;
  step6 a ;;
  for_each success_banner print.

(** Lines 45-50. *)
Definition header (a : arguments) : M unit :=
  print rule_eq ;;
  print "Testing Remote MCP Server - Databricks App" ;;
  print rule_eq ;;
  print (nl ++ "Workspace: " ++ arg_host a) ;;
  print ("App URL: " ++ arg_app_url a) ;;
  print "".

(** Lines 156-161, up to [sys.exit(1)]. *)
Definition handler (e : exn) : M unit :=
  print "" ;;
  print rule_eq ;;
  print ("✗ Error: " ++ exc_msg e) ;;
  print rule_eq.

Definition initial : state := mkState 0 [].

(** [main()] from line 45 on, as a process: its exit status and what it
    wrote.  Falling off the end of [main] ends the process with status 0;
    [sys.exit(1)] ends it with status 1. *)
Definition main (a : arguments) (env : remote) : Z * list string :=
  match header a env initial with
  | (inl e, st) => (1, stdout st)
  | (inr _, st0) =>
      match try_body a env st0 with
      | (inr _, st1) => (0, stdout st1)
      | (inl e, st1) =>
          match handler e env st1 with
          | (_, st2) => (1, stdout st2)
          end
      end
  end.

(** The outcome of the [try] body in a run of [main]. *)
Definition body_result (a : arguments) (env : remote) : exn + unit :=
  fst (try_body a env (snd (header a env initial))).

End Script.

Arguments JNull {number}.
Arguments JBool {number} b.
Arguments JInt {number} n.
Arguments JFloat {number} n.
Arguments JStr {number} s.
Arguments JArr {number} l.
Arguments JObj {number} fields.

(** ** Scenarios *)

(** A toy interpreter for the parts left open: a number is its decimal
    text, and the server's payloads are named instead of spelled out. *)
Definition demo_json : Type := json string.

Definition demo_py_eq (x y : demo_json) : bool :=
  match x, y with
  | JNull, JNull => true
  | JBool a, JBool b => Bool.eqb a b
  | (JInt a | JFloat a), (JInt b | JFloat b) => String.eqb a b
  | JStr a, JStr b => String.eqb a b
  | _, _ => false
  end.

Definition demo_py_str (x : demo_json) : string :=
  match x with
  | JNull => "None"
  | JBool true => "True"
  | JBool false => "False"
  | JInt n | JFloat n => n
  | JStr s => s
  | JArr _ => "[...]"
  | JObj _ => "{...}"
  end.

Definition demo_num_truthy (n : string) : bool :=
  negb (String.eqb n "0" || String.eqb n "0.0").

Definition JSONDecodeError : exn :=
  mkExn "JSONDecodeError" "Expecting value: line 1 column 1 (char 0)" true.

Definition sum_payload (a b r : string) : demo_json :=
  JObj [("result", JFloat r); ("a", JFloat a); ("b", JFloat b)].

Definition job_failed_payload : demo_json :=
  JObj [("success", JBool false);
        ("error", JStr "Job 999999999 does not exist");
        ("job_id", JInt "999999999")].

Definition job_started_payload : demo_json :=
  JObj [("success", JBool true); ("run_id", JInt "42");
        ("run_page_url", JStr "https://example.cloud.databricks.com/jobs/7/runs/42")].

Definition demo_json_loads (text : string) : exn + demo_json :=
  if String.eqb text "sum 5 3" then inr (sum_payload "5.0" "3.0" "8.0")
  else if String.eqb text "sum 10.5 2.3" then inr (sum_payload "10.5" "2.3" "12.8")
  else if String.eqb text "sum -5 10" then inr (sum_payload "-5.0" "10.0" "5.0")
  else if String.eqb text "sum wrong" then inr (sum_payload "5.0" "3.0" "9.0")
  else if String.eqb text "job failed" then inr job_failed_payload
  else if String.eqb text "job started" then inr job_started_payload
  else if String.eqb text "health" then inr (JObj [("status", JStr "healthy")])
  else inl JSONDecodeError.

Definition demo_tools : tool_seq :=
  mkToolSeq [mkTool "health" "Check server health";
             mkTool "add_numbers" "Add two numbers";
             mkTool "trigger_job_run" "Trigger a job run"]
            true "[Tool(name='health'), Tool(name='add_numbers'), Tool(name='trigger_job_run')]".

Definition text_result (text : string) : call_result :=
  mkCallResult [text] ("CallToolResult(" ++ text ++ ")").

(** The answers of a server whose job trigger reports a failure; [sums]
    says whether [add_numbers] adds correctly. *)
Definition demo_call_tool (sums : bool) (n : nat) (tool_name : string)
    (args : list (string * demo_json)) : exn + call_result :=
  if String.eqb tool_name "add_numbers" then
    if sums then
      match lookup string "a" args with
      | Some (JInt a) | Some (JFloat a) =>
          if String.eqb a "5" then inr (text_result "sum 5 3")
          else if String.eqb a "10.5" then inr (text_result "sum 10.5 2.3")
          else inr (text_result "sum -5 10")
      | _ => inl (mkExn "McpError" "Invalid arguments" true)
      end
    else inr (text_result "sum wrong")
  else if String.eqb tool_name "trigger_job_run" then inr (text_result "job failed")
  else if String.eqb tool_name "health" then inr (text_result "health")
  else inl (mkExn "McpError" ("Unknown tool: " ++ tool_name) true).

Definition demo_remote : remote string :=
  mkRemote string (fun _ _ => None) (fun _ => None) (inr demo_tools)
           (demo_call_tool true).

(** The workspace rejects the token. *)
Definition unauthorized_remote : remote string :=
  mkRemote string
           (fun _ _ => Some (mkExn "PermissionDenied" "Invalid access token" true))
           (fun _ => None) (inr demo_tools) (demo_call_tool true).

(** The tool call itself fails. *)
Definition broken_tool_remote : remote string :=
  mkRemote string (fun _ _ => None) (fun _ => None) (inr demo_tools)
           (fun _ _ _ => inl (mkExn "McpError" "Connection closed" true)).

(** [add_numbers] answers 9.0 for 5 + 3. *)
Definition wrong_sum_remote : remote string :=
  mkRemote string (fun _ _ => None) (fun _ => None) (inr demo_tools)
           (demo_call_tool false).

Definition demo_args : arguments :=
  mkArgs "https://example.cloud.databricks.com" "token"
         "https://example.cloud.databricks.com/apps/my-app" (Some 999999999).

Definition demo_main (a : arguments) (env : remote string) : Z * list string :=
  main string (fun s => s) demo_py_eq demo_py_str demo_num_truthy
       demo_json_loads a env.

(** Where the run of [demo_main demo_args demo_remote] stands when it
    reaches step 6. *)
Definition demo_state_before_trigger : state :=
  snd (steps1to5 string (fun s => s) demo_py_eq demo_py_str demo_json_loads
         demo_args demo_remote
         (snd (header string demo_args demo_remote initial))).

(** The last [n] lines of an output. *)
Definition last_lines (n : nat) (out : list string) : list string :=
  rev (firstn n (rev out)).

End QueryRemote.

Module Lifecycle.

Import Harness.
Local Open Scope harness_scope.

(** ** The fixture from start to finish *)

(** The generator as pytest drives it: run to the [yield], and, after the
    tests of the session, resumed to its end.  When the part before the
    [yield] raises, the generator is never resumed. *)
Definition run_mcp_server (fuel : nat) : M unit :=
  r <- run_mcp_server_setup fuel ;;
  run_mcp_server_teardown (snd r).

(** The string handed to [shlex.split] at line 42. *)
Definition command_line (port : Z) : string :=
  "uv run custom-mcp-server --port " ++ str_int port.

(** Events that only the part after the [yield] produces. *)
Definition is_teardown_event (ev : event) : bool :=
  match ev with
  | EvKillpg _ _ | EvWait _ _ => true
  | _ => false
  end.

(** The duration of the i-th round of the polling loop when the request
    does not end it: the request, the sleep and its oversleep. *)
Definition round_ms (net : network) (i : nat) : Z :=
  Z.of_N (get_ms (net i)) + sleep_interval_ms + Z.of_N (oversleep_ms (net i)).

(** Refused once, then answered with 503 for good. *)
Definition recovering_net : network :=
  fun i =>
    if (i =? 0)%nat then mkAttempt 2 (Raises connection_refused) 0
    else mkAttempt 5 (Responds (mkResponse 503 "starting")) 0.


End Lifecycle.

Module ScriptRun.

Import QueryRemote.

(** ** What a run of the script asks of the remote side and writes *)

Section Run.

Variable number : Type.
Variable literal : string -> number.
Variable json_loads : string -> exn + json number.

(** The document behind an answer of [call_tool]:
    [json.loads(result.content[0].text)]. *)
Definition payload (answer : exn + call_result) : exn + json number :=
  match answer with
  | inl e => inl e
  | inr result =>
      match content0_text result with
      | inl e => inl e
      | inr text => json_loads text
      end
  end.

(** The calls of [call_tool] that the script makes for the arguments [a]:
    a tool outside the skip list without arguments, [add_numbers] with the
    operands of a test case, [trigger_job_run] with the job id given. *)
Definition consulted (a : arguments) (tool_name : string)
    (args : list (string * json number)) : Prop :=
  (args = [] /\ in_list tool_name skipped_tools = false)
  \/ (tool_name = "add_numbers" /\
      exists x y expected,
        In (x, y, expected) test_cases /\
        args = [("a", num number literal x); ("b", num number literal y)])
  \/ (tool_name = "trigger_job_run" /\
      exists id,
        job_id_given a = Some id /\
        args = [("job_id", num number literal (str_int id))]).

(** Two remote sides that a run for [a] cannot tell apart. *)
Definition same_answers (a : arguments) (env env' : remote number) : Prop :=
  (forall h t, new_workspace_client number env h t
               = new_workspace_client number env' h t) /\
  (forall u, new_mcp_client number env u = new_mcp_client number env' u) /\
  remote_list_tools number env = remote_list_tools number env' /\
  (forall n tool_name args,
     consulted a tool_name args ->
     remote_call_tool number env n tool_name args
     = remote_call_tool number env' n tool_name args).

End Run.

(** Lines 45-50 as written. *)
Definition header_lines (a : arguments) : list string :=
  [rule_eq; "Testing Remote MCP Server - Databricks App"; rule_eq;
   nl ++ "Workspace: " ++ arg_host a; "App URL: " ++ arg_app_url a; ""].

(** Lines 157-160 as written. *)
Definition error_lines (e : exn) : list string :=
  [""; rule_eq; "✗ Error: " ++ exc_msg e; rule_eq].

(** The lines that open step 6 when a job id is given. *)
Definition trigger_lines (id : Z) : list string :=
  ["Step 6: Testing trigger_job_run tool..."; rule_dash;
   nl ++ "Triggering job run for job ID: " ++ str_int id].

(** A server as [demo_remote], whose job trigger fails in its own way. *)
Definition remote_with_trigger (answer : exn + call_result) : remote string :=
  mkRemote string (fun _ _ => None) (fun _ => None) (inr demo_tools)
    (fun n tool_name args =>
       if String.eqb tool_name "trigger_job_run" then answer
       else demo_call_tool true n tool_name args).

(** A server as [demo_remote] that refuses [add_numbers] and
    [trigger_job_run] when they are called without arguments. *)
Definition picky_remote : remote string :=
  mkRemote string (fun _ _ => None) (fun _ => None) (inr demo_tools)
    (fun n tool_name args =>
       match args with
       | [] =>
           if in_list tool_name skipped_tools
           then inl (mkExn "McpError" "Missing required arguments" true)
           else demo_call_tool true n tool_name args
       | _ => demo_call_tool true n tool_name args
       end).

Definition no_job_args : arguments :=
  mkArgs "https://example.cloud.databricks.com" "token"
         "https://example.cloud.databricks.com/apps/my-app" (Some 0).

End ScriptRun.

Module Tests.

Import QueryRemote.

(** ** The tests of [tests/test_integration_server.py] *)

(** What [call_tool] hands to a test, when it is not [None]: the [text] of
    each element of [content], which may be [None]. *)
Record result : Type := mkResult {
  result_content : list (option string)
}.

Section Suite.

Variable number : Type.
Variable literal : string -> number.
Variable py_eq : json number -> json number -> bool.
Variable py_str : json number -> string.
Variable json_loads : string -> exn + json number.

(** The server behind the url that the fixture yields. *)
Record server : Type := mkServer {
  connect : string -> option exn;
  server_list_tools : exn + tool_seq;
  server_call_tool :
    nat -> string -> list (string * json number) -> exn + option result
}.

Definition T (A : Type) : Type := server -> state -> (exn + A) * state.

Definition t_ret {A} (a : A) : T A := fun _ st => (inr a, st).

Definition t_raise {A} (e : exn) : T A := fun _ st => (inl e, st).

Definition t_bind {A B} (m : T A) (k : A -> T B) : T B :=
  fun env st =>
    match m env st with
    | (inr a, st') => k a env st'
    | (inl e, st') => (inl e, st')
    end.

Notation "x <- m ;; k" := (t_bind m (fun x => k))
  (at level 61, m at next level, right associativity).
Notation "m ;; k" := (t_bind m (fun _ => k))
  (at level 61, right associativity).

Definition t_lift {A} (r : exn + A) : T A := fun _ st => (r, st).

Definition t_print (line : string) : T unit :=
  fun _ st => (inr tt, mkState (calls st) (stdout st ++ [line])%list).

(** [assert b] *)
Definition assert (b : bool) : T unit :=
  if b then t_ret tt else t_raise (AssertionError "").

(** [DatabricksMCPClient(server_url=f"{url}/mcp")] *)
Definition mcp_client (url : string) : T unit :=
  fun env st =>
    (match connect env (url ++ "/mcp") with
     | Some e => inl e
     | None => inr tt
     end, st).

Definition t_list_tools : T tool_seq :=
  fun env st => (server_list_tools env, st).

Definition t_call_tool (tool_name : string) (args : list (string * json number))
    : T (option result) :=
  fun env st =>
    (server_call_tool env (calls st) tool_name args,
     mkState (S (calls st)) (stdout st)).

Fixpoint t_for_each {A} (l : list A) (f : A -> T unit) : T unit :=
  match l with
  | [] => t_ret tt
  | x :: l' => f x ;; t_for_each l' f
  end.

(** [result.content[0].text] *)
Definition first_text (r : result) : exn + option string :=
  match result_content r with
  | t :: _ => inr t
  | [] => inl (IndexError "list index out of range")
  end.

(** The lines that every check of a tool's answer starts with:
    [[
    result = mcp_client.call_tool(name, arguments=...)
    assert result is not None
    assert result.content[0].text is not None
    result_data = json.loads(result.content[0].text)
    ]] *)
Definition checked_call (tool_name : string)
    (args : list (string * json number)) : T (json number) :=
  result <- t_call_tool tool_name args ;;
  match result with
  | None => t_raise (AssertionError "")
  | Some r =>
      text <- t_lift (first_text r) ;;
      match text with
      | None => t_raise (AssertionError "")
      | Some t => t_lift (json_loads t)
      end
  end.

(** [assert result_data[key] == value] *)
Definition assert_entry (data : json number) (key value : string) : T unit :=
  v <- t_lift (subscript number data key) ;;
  assert (py_eq v (num number literal value)).

(** [x is False] *)
Definition is_False (x : json number) : bool :=
  match x with
  | JBool false => true
  | _ => false
  end.

(** Lines 73-78. *)
Definition test_list_tools (url : string) : T unit :=
  mcp_client url ;;
  tools <- t_list_tools ;;
  t_for_each (items tools) (fun t =>
    t_print ("name: " ++ name t) ;;
    t_print ("description: " ++ description t)).

(** Lines 83-92. *)
Definition test_call_tools (url : string) : T unit :=
  mcp_client url ;;
  tools <- t_list_tools ;;
  t_for_each (items tools) (fun t =>
    if in_list (name t) skipped_tools then t_ret tt
    else
      result <- t_call_tool (name t) [] ;;
      assert (match result with Some _ => true | None => false end)).

Definition operands (x y : string) : list (string * json number) :=
  [("a", num number literal x); ("b", num number literal y)].

(** Lines 96-123. *)
Definition test_add_numbers (url : string) : T unit :=
  mcp_client url ;;
  result_data <- checked_call "add_numbers" (operands "5" "3") ;;
  assert_entry result_data "result" "8.0" ;;
  assert_entry result_data "a" "5.0" ;;
  assert_entry result_data "b" "3.0" ;;
  result_data <- checked_call "add_numbers" (operands "10.5" "2.3") ;;
  assert_entry result_data "result" "12.8" ;;
  assert_entry result_data "a" "10.5" ;;
  assert_entry result_data "b" "2.3" ;;
  result_data <- checked_call "add_numbers" (operands "-5" "10") ;;
  assert_entry result_data "result" "5.0".

(** Lines 127-142. *)
Definition test_trigger_job_run_error_handling (url : string) : T unit :=
  mcp_client url ;;
  result_data <- checked_call "trigger_job_run"
                   [("job_id", num number literal "999999999")] ;;
  success <- t_lift (subscript number result_data "success") ;;
  assert (is_False success) ;;
  has_error <- t_lift (contains number py_eq result_data "error") ;;
  assert has_error ;;
  assert_entry result_data "job_id" "999999999" ;;
  err <- t_lift (subscript number result_data "error") ;;
  t_print ("Error message (expected): " ++ py_str err).

(** *** What a passing test has seen *)

(** The n-th call of [call_tool] is answered with a result whose first
    content holds a text that decodes to [data]. *)
Definition answers_with (env : server) (n : nat) (tool_name : string)
    (args : list (string * json number)) (data : json number) : Prop :=
  exists r t rest,
    server_call_tool env n tool_name args = inr (Some r) /\
    result_content r = Some t :: rest /\
    json_loads t = inr data.

(** [data[key]] exists and equals the literal [value]. *)
Definition has_entry (data : json number) (key value : string) : Prop :=
  exists v,
    subscript number data key = inr v /\
    py_eq v (num number literal value) = true.

End Suite.

(** ** Scenarios *)

Definition demo_answer (text : string) : exn + option result :=
  inr (Some (mkResult [Some text])).

(** A server that adds correctly and knows no job 999999999. *)
Definition demo_server : server string :=
  mkServer string (fun _ => None) (inr demo_tools)
    (fun n tool_name args =>
       if String.eqb tool_name "add_numbers" then
         match lookup string "a" args with
         | Some (JInt a) | Some (JFloat a) =>
             if String.eqb a "5" then demo_answer "sum 5 3"
             else if String.eqb a "10.5" then demo_answer "sum 10.5 2.3"
             else demo_answer "sum -5 10"
         | _ => inl (mkExn "McpError" "Invalid arguments" true)
         end
       else if String.eqb tool_name "trigger_job_run" then demo_answer "job failed"
       else if String.eqb tool_name "health" then demo_answer "health"
       else inl (mkExn "McpError" ("Unknown tool: " ++ tool_name) true)).

Definition demo_test_url : string := "http://127.0.0.1:8000".

End Tests.

Module ScriptOutcome.

Import QueryRemote.

(** ** The script as a process *)

(** [parser.parse_args()], line 43.  [argparse] is not part of the
    repository; of the command line it leaves one of three outcomes: the
    namespace, a usage error ([parser.error]: a message on stderr and
    [SystemExit(2)]), or the help text on stdout and [SystemExit(0)]. *)
Inductive parse_outcome : Type :=
| Parsed (a : arguments)
| UsageError
| HelpShown (help : list string).

Section Outcome.

Variable number : Type.
Variable literal : string -> number.
Variable py_eq : json number -> json number -> bool.
Variable py_str : json number -> string.
Variable num_truthy : number -> bool.
Variable json_loads : string -> exn + json number.

(** [main()] from its first line: the parser, then lines 45-161. *)
Definition script (p : parse_outcome) (env : remote number) : Z * list string :=
  match p with
  | Parsed a => main number literal py_eq py_str num_truthy json_loads a env
  | UsageError => (2, [])
  | HelpShown help => (0, help)
  end.

(** The tools that step 4 calls, in the order it calls them. *)
Definition called_tools (tools : tool_seq) : list tool :=
  filter (fun t => negb (in_list (name t) skipped_tools)) (items tools).

(** The n-th call of [call_tool] answers a test case as expected. *)
Definition case_passes (env : remote number) (n : nat)
    (c : string * string * string) : Prop :=
  let '(x, y, expected) := c in
  exists data actual,
    ScriptRun.payload number json_loads
      (remote_call_tool number env n "add_numbers"
         [("a", num number literal x); ("b", num number literal y)])
    = inr data /\
    subscript number data "result" = inr actual /\
    py_eq actual (num number literal expected) = true.

(** The n-th call of [call_tool] answers the job trigger, if one is asked
    for, with a document that has a [get]. *)
Definition trigger_readable (a : arguments) (env : remote number) (n : nat)
    : Prop :=
  match job_id_given a with
  | None => True
  | Some id =>
      exists data v,
        ScriptRun.payload number json_loads
          (remote_call_tool number env n "trigger_job_run"
             [("job_id", num number literal (str_int id))])
        = inr data /\
        dict_get number data "success" = inr v
  end.

(** No step of the body of the [try] statement raises: both clients are
    made, the tools are listed, every call of step 4 returns, the three
    test cases pass and the answer of the job trigger can be read. *)
Definition every_step_completes (a : arguments) (env : remote number) : Prop :=
  new_workspace_client number env (arg_host a) (arg_token a) = None /\
  new_mcp_client number env (arg_app_url a ++ "/mcp") = None /\
  exists tools,
    remote_list_tools number env = inr tools /\
    (forall i t,
       nth_error (called_tools tools) i = Some t ->
       exists r, remote_call_tool number env i (name t) [] = inr r) /\
    (forall k c,
       nth_error test_cases k = Some c ->
       case_passes env (List.length (called_tools tools) + k) c) /\
    trigger_readable a env (List.length (called_tools tools) + 3).

End Outcome.

End ScriptOutcome.

(** * Properties of the readiness wait *)

Section WaitFacts.

Import Harness.

Variable url : string.
Variable timeout : Z.
Variable net : network.
Variable start : Z.

Lemma clock_at_step (i : nat) :
  clock_at net start i + sleep_interval_ms <= clock_at net start (S i).
Proof. simpl. unfold sleep_interval_ms. lia. Qed.

Lemma clock_at_mono (i j : nat) :
  (i <= j)%nat -> clock_at net start i <= clock_at net start j.
Proof.
  induction 1 as [|j _ IH]; [lia|].
  pose proof (clock_at_step j). unfold sleep_interval_ms in *. lia.
Qed.

Lemma clock_at_lower (i : nat) :
  start + sleep_interval_ms * Z.of_nat i <= clock_at net start i.
Proof.
  induction i as [|i IH]; [simpl; lia|].
  pose proof (clock_at_step i). unfold sleep_interval_ms in *. lia.
Qed.

Lemma last_raised_raises (i : nat) (e : exn) :
  get_outcome (net i) = Raises e -> last_raised net (S i) = Some e.
Proof. intros H. simpl. now rewrite H. Qed.

Lemma last_raised_responds (i : nat) (r : response) :
  get_outcome (net i) = Responds r -> last_raised net (S i) = last_raised net i.
Proof. intros H. simpl. now rewrite H. Qed.

(** The exception held in [last_exc] was raised by one of the requests. *)
Lemma last_raised_from (n : nat) (e : exn) :
  last_raised net n = Some e ->
  exists i, (i < n)%nat /\ get_outcome (net i) = Raises e /\
    forall j e', (i < j < n)%nat -> get_outcome (net j) <> Raises e'.
Proof.
  induction n as [|n IH]; simpl; [discriminate|].
  destruct (get_outcome (net n)) as [r|e0] eqn:Hn.
  - intros H. destruct (IH H) as (i & Hi & He & Hlast).
    exists i. repeat split; [lia|assumption|].
    intros j e' Hj. destruct (Nat.eq_dec j n) as [->|Hne].
    + rewrite Hn. discriminate.
    + apply Hlast. lia.
  - intros [= ->]. exists n. repeat split; [lia|assumption|].
    intros j e' Hj. lia.
Qed.

Lemma last_raised_none (n : nat) :
  (forall i e, (i < n)%nat -> get_outcome (net i) <> Raises e) ->
  last_raised net n = None.
Proof.
  induction n as [|n IH]; intros H; simpl; [reflexivity|].
  destruct (get_outcome (net n)) as [r|e] eqn:Hn.
  - apply IH. intros i e Hi. apply H. lia.
  - exfalso. apply (H n e); [lia|assumption].
Qed.

(** More loop tests than needed change nothing. *)
Lemma wait_loop_more_fuel (fuel fuel' : nat) (i : nat) (now : Z)
    (le : option exn) (o : outcome) :
  wait_loop fuel url timeout net i now (start + timeout * 1000) le = Some o ->
  (fuel <= fuel')%nat ->
  wait_loop fuel' url timeout net i now (start + timeout * 1000) le = Some o.
Proof.
  revert fuel' i now le.
  induction fuel as [|fuel IH]; intros fuel' i now le H Hle; [discriminate|].
  destruct fuel' as [|fuel']; [lia|].
  simpl in *.
  destruct (now <? (start + timeout * 1000)); [|assumption].
  destruct (get_outcome (net i)) as [r|e].
  - destruct (success_status r); [assumption|].
    apply IH; [assumption|lia].
  - apply IH; [assumption|lia].
Qed.

(** The loop ends: each round that does not return costs at least the sleep
    interval, so [f] rounds cover a distance of [100 * f] to the deadline. *)
Lemma wait_loop_terminates (f : nat) (i : nat) (now : Z) (le : option exn) :
  (start + timeout * 1000) - now <= sleep_interval_ms * Z.of_nat f ->
  exists o, wait_loop (S f) url timeout net i now (start + timeout * 1000) le = Some o.
Proof.
  revert i now le.
  induction f as [|f IH]; intros i now le Hd.
  - simpl. destruct (Z.ltb_spec now (start + timeout * 1000)) as [Hlt|Hge].
    + unfold sleep_interval_ms in Hd. lia.
    + eauto.
  - cbn [wait_loop]. destruct (Z.ltb_spec now (start + timeout * 1000)) as [Hlt|Hge]; [|eauto].
    cbv zeta.
    destruct (get_outcome (net i)) as [r|e].
    + destruct (success_status r); [eauto|].
      apply IH. unfold sleep_interval_ms in *. lia.
    + apply IH. unfold sleep_interval_ms in *. lia.
Qed.

Lemma enough_fuel_covers :
  (start + timeout * 1000) - start
  <= sleep_interval_ms * Z.of_nat (Z.to_nat (timeout * 1000 / sleep_interval_ms + 1)).
Proof.
  unfold sleep_interval_ms.
  pose proof (Z.div_mod (timeout * 1000) 100 ltac:(lia)) as Hdm.
  pose proof (Z.mod_pos_bound (timeout * 1000) 100 ltac:(lia)) as Hmod.
  lia.
Qed.

Lemma wait_enough_fuel (fuel : nat) :
  (enough_fuel timeout <= fuel)%nat ->
  exists o, _wait_for_server_startup fuel net start url timeout = Some o /\
    _wait_for_server_startup (enough_fuel timeout) net start url timeout = Some o.
Proof.
  intros Hle. unfold _wait_for_server_startup, enough_fuel in *.
  destruct (wait_loop_terminates _ 0 start None enough_fuel_covers) as [o Ho].
  exists o. split; [|assumption].
  eapply wait_loop_more_fuel; eassumption.
Qed.

(** What the loop computes, read off the schedule: either some request that
    was made succeeded first, or the loop gave up and the code after it ran
    on the last exception recorded. *)
Lemma wait_loop_sound (fuel : nat) (i : nat) (o : outcome) :
  (forall j, (j < i)%nat ->
     clock_at net start j < (start + timeout * 1000) /\ succeeds (net j) = false) ->
  wait_loop fuel url timeout net i (clock_at net start i) (start + timeout * 1000)
            (last_raised net i) = Some o ->
  (exists n r, polled net start (start + timeout * 1000) n /\
               get_outcome (net n) = Responds r /\ success_status r = true /\
               o = Returned r)
  \/ (exists n, gives_up_after net start (start + timeout * 1000) n /\
                o = after_loop url timeout (last_raised net n)).
Proof.
  revert i.
  induction fuel as [|fuel IH]; intros i Hprev H; [discriminate|].
  cbn [wait_loop] in H. cbv zeta in H.
  destruct (Z.ltb_spec (clock_at net start i) (start + timeout * 1000)) as [Hlt|Hge].
  - assert (Hstep : forall j, (j < S i)%nat -> succeeds (net i) = false ->
              clock_at net start j < (start + timeout * 1000) /\ succeeds (net j) = false).
    { intros j Hj Hi. destruct (Nat.eq_dec j i) as [->|Hne]; [tauto|].
      apply Hprev. lia. }
    destruct (get_outcome (net i)) as [r|e] eqn:Hout.
    + destruct (success_status r) eqn:Hs.
      * injection H as <-. left. exists i, r.
        repeat split; try assumption.
        intros j Hj. now apply Hprev.
      * rewrite <- (last_raised_responds i r Hout) in H.
        replace (clock_at net start i + Z.of_N (get_ms (net i))
                 + sleep_interval_ms + Z.of_N (oversleep_ms (net i)))
          with (clock_at net start (S i)) in H by reflexivity.
        apply (IH (S i)); [|assumption].
        intros j Hj. apply Hstep; [assumption|].
        unfold succeeds. now rewrite Hout.
    + rewrite <- (last_raised_raises i e Hout) in H.
      replace (clock_at net start i + Z.of_N (get_ms (net i))
               + sleep_interval_ms + Z.of_N (oversleep_ms (net i)))
        with (clock_at net start (S i)) in H by reflexivity.
      apply (IH (S i)); [|assumption].
      intros j Hj. apply Hstep; [assumption|].
      unfold succeeds. now rewrite Hout.
  - injection H as <-. right. exists i. split; [|reflexivity].
    split; [lia|assumption].
Qed.

Lemma wait_sound (fuel : nat) (o : outcome) :
  _wait_for_server_startup fuel net start url timeout = Some o ->
  (exists n r, polled net start (start + timeout * 1000) n /\
               get_outcome (net n) = Responds r /\ success_status r = true /\
               o = Returned r)
  \/ (exists n, gives_up_after net start (start + timeout * 1000) n /\
                o = after_loop url timeout (last_raised net n)).
Proof.
  intros H. apply (wait_loop_sound fuel 0); [intros j Hj; lia|exact H].
Qed.

(** The schedule has one ending only. *)
Lemma polled_success_unique (n m : nat) :
  polled net start (start + timeout * 1000) n -> succeeds (net n) = true ->
  polled net start (start + timeout * 1000) m -> succeeds (net m) = true ->
  n = m.
Proof.
  intros [_ Hn] Sn [_ Hm] Sm.
  destruct (Nat.lt_trichotomy n m) as [Hlt|[Heq|Hgt]]; [|assumption|].
  - rewrite (Hm n Hlt) in Sn. discriminate.
  - rewrite (Hn m Hgt) in Sm. discriminate.
Qed.

Lemma gives_up_excludes_success (n m : nat) :
  gives_up_after net start (start + timeout * 1000) n ->
  polled net start (start + timeout * 1000) m -> succeeds (net m) = true -> False.
Proof.
  intros [Hd Hn] [Hc _] Sm.
  destruct (Nat.lt_ge_cases m n) as [Hlt|Hge].
  - destruct (Hn m Hlt) as [_ Hf]. rewrite Hf in Sm. discriminate.
  - pose proof (clock_at_mono n m Hge). lia.
Qed.

Lemma gives_up_unique (n m : nat) :
  gives_up_after net start (start + timeout * 1000) n ->
  gives_up_after net start (start + timeout * 1000) m -> n = m.
Proof.
  intros [Hdn Hn] [Hdm Hm].
  destruct (Nat.lt_trichotomy n m) as [Hlt|[Heq|Hgt]]; [|assumption|].
  - destruct (Hm n Hlt). lia.
  - destruct (Hn m Hgt). lia.
Qed.

End WaitFacts.

Import Harness.

Lemma success_status_range (r : response) :
  success_status r = true <-> 200 <= status_code r < 400.
Proof. unfold success_status. rewrite andb_true_iff, Z.leb_le, Z.ltb_lt. tauto. Qed.

Lemma gives_up_polled (net : network) (start deadline : Z) (n i : nat) :
  gives_up_after net start deadline n -> (i < n)%nat ->
  polled net start deadline i.
Proof.
  intros [_ H] Hi. split; [now apply H|].
  intros j Hj. apply H. lia.
Qed.

(** C3: if some request made before the deadline is answered with a status in
    200-399, the wait returns the first such response of the schedule; and
    whatever the wait returns is a polled response with a status in 200-399. *)
Theorem wait_returns_first_success :
  forall (net : network) (start : Z) (url : string) (timeout : Z) (fuel : nat),
  (enough_fuel timeout <= fuel)%nat ->
  (forall i r,
      clock_at net start i < start + timeout * 1000 ->
      get_outcome (net i) = Responds r ->
      200 <= status_code r < 400 ->
      exists n r0,
        (n <= i)%nat /\ polled net start (start + timeout * 1000) n /\
        get_outcome (net n) = Responds r0 /\ 200 <= status_code r0 < 400 /\
        _wait_for_server_startup fuel net start url timeout = Some (Returned r0))
  /\ (forall r,
      _wait_for_server_startup fuel net start url timeout = Some (Returned r) ->
      200 <= status_code r < 400 /\
      exists n, polled net start (start + timeout * 1000) n /\
                get_outcome (net n) = Responds r).
Proof.
  intros net start url timeout fuel Hfuel. split.
  - intros i r Hclock Hout Hrange.
    assert (Hsucc : succeeds (net i) = true).
    { unfold succeeds. rewrite Hout. now apply success_status_range. }
    destruct (wait_enough_fuel url timeout net start fuel Hfuel) as (o & Ho & _).
    destruct (wait_sound url timeout net start fuel o Ho)
      as [(n & r0 & Hp & Hn & Hs & ->)|(n & Hg & _)].
    + exists n, r0. repeat split; try assumption; try (apply success_status_range; assumption).
      * destruct (Nat.le_gt_cases n i) as [Hle|Hgt]; [assumption|].
        destruct Hp as [_ Hprev]. rewrite (Hprev i Hgt) in Hsucc. discriminate.
      * apply Hp.
      * apply Hp.
    + exfalso. destruct Hg as [Hd Hprev].
      destruct (Nat.lt_ge_cases i n) as [Hlt|Hge].
      * destruct (Hprev i Hlt) as [_ Hf]. rewrite Hf in Hsucc. discriminate.
      * pose proof (clock_at_mono net start n i Hge). lia.
  - intros r Hr.
    destruct (wait_sound url timeout net start fuel _ Hr)
      as [(n & r0 & Hp & Hn & Hs & [= ->])|(n & _ & Hafter)].
    + split; [now apply success_status_range|]. exists n. now split.
    + exfalso. unfold after_loop in Hafter.
      destruct (last_raised net n) as [e|]; [destruct (exc_truthy e)|]; discriminate.
Qed.

Lemma wait_returns_first_success_witness :
  (enough_fuel 1 <= enough_fuel 1)%nat /\
  (forall i r,
      clock_at slow_start_net 0 i < 0 + 1 * 1000 ->
      get_outcome (slow_start_net i) = Responds r ->
      200 <= status_code r < 400 ->
      exists n r0,
        (n <= i)%nat /\ polled slow_start_net 0 (0 + 1 * 1000) n /\
        get_outcome (slow_start_net n) = Responds r0 /\
        200 <= status_code r0 < 400 /\
        _wait_for_server_startup (enough_fuel 1) slow_start_net 0 demo_url 1
          = Some (Returned r0))
  /\ (forall r,
      _wait_for_server_startup (enough_fuel 1) slow_start_net 0 demo_url 1
        = Some (Returned r) ->
      200 <= status_code r < 400 /\
      exists n, polled slow_start_net 0 (0 + 1 * 1000) n /\
                get_outcome (slow_start_net n) = Responds r).
Proof.
  split; [apply le_n|].
  apply (wait_returns_first_success slow_start_net 0 demo_url 1 (enough_fuel 1)).
  apply le_n.
Defined.

Example slow_start_returns_ready :
  _wait_for_server_startup (enough_fuel 1) slow_start_net 0 demo_url 1
  = Some (Returned ready_response).
Proof. vm_compute. reflexivity. Qed.

(** C1, as the code has it: when no request made before the deadline is
    answered with a status in 200-399 and some request raised, the wait
    re-raises the exception of the last request that raised, unchanged; in
    particular when every request raises (the port is never bound) and the
    timeout is positive, the exception of the last request made is re-raised. *)
Theorem wait_reraises_last_exception :
  forall (net : network) (start : Z) (url : string) (timeout : Z) (fuel : nat),
  (enough_fuel timeout <= fuel)%nat ->
  (forall i e, get_outcome (net i) = Raises e -> exc_truthy e = true) ->
  (forall i, polled net start (start + timeout * 1000) i ->
             succeeds (net i) = false) ->
  exists n,
    gives_up_after net start (start + timeout * 1000) n /\
    (forall e, last_raised net n = Some e ->
       _wait_for_server_startup fuel net start url timeout = Some (Reraised e) /\
       raised url timeout (Reraised e) = Some e) /\
    (0 < timeout -> (forall i, exists e, get_outcome (net i) = Raises e) ->
       exists e, get_outcome (net (pred n)) = Raises e /\
         _wait_for_server_startup fuel net start url timeout = Some (Reraised e)).
Proof.
  intros net start url timeout fuel Hfuel Htruthy Hnone.
  destruct (wait_enough_fuel url timeout net start fuel Hfuel) as (o & Ho & _).
  destruct (wait_sound url timeout net start fuel o Ho)
    as [(n & r0 & Hp & Hn & Hs & _)|(n & Hg & ->)].
  - exfalso. specialize (Hnone n Hp). unfold succeeds in Hnone.
    rewrite Hn, Hs in Hnone. discriminate.
  - exists n. split; [assumption|].
    assert (Hre : forall e, last_raised net n = Some e ->
              _wait_for_server_startup fuel net start url timeout
              = Some (Reraised e)).
    { intros e He. rewrite Ho. unfold after_loop. rewrite He.
      destruct (last_raised_from net n e He) as (i & _ & Hi & _).
      now rewrite (Htruthy i e Hi). }
    split.
    + intros e He. split; [now apply Hre|reflexivity].
    + intros Hpos Hall.
      destruct n as [|n].
      * exfalso. destruct Hg as [Hd _]. simpl in Hd. lia.
      * destruct (Hall n) as [e He]. exists e. split; [exact He|].
        apply Hre. now apply last_raised_raises.
Qed.

Lemma wait_reraises_last_exception_witness :
  exists n,
    gives_up_after refused_net 0 (0 + 1 * 1000) n /\
    (forall e, last_raised refused_net n = Some e ->
       _wait_for_server_startup (enough_fuel 1) refused_net 0 demo_url 1
         = Some (Reraised e) /\
       raised demo_url 1 (Reraised e) = Some e) /\
    (0 < 1 -> (forall i, exists e, get_outcome (refused_net i) = Raises e) ->
       exists e, get_outcome (refused_net (pred n)) = Raises e /\
         _wait_for_server_startup (enough_fuel 1) refused_net 0 demo_url 1
           = Some (Reraised e)).
Proof.
  apply (wait_reraises_last_exception refused_net 0 demo_url 1 (enough_fuel 1)).
  - apply le_n.
  - intros i e H. simpl in H. injection H as <-. reflexivity.
  - intros i _. reflexivity.
Defined.

(** C1 as stated fails: with the port never bound, every request is refused
    and the wait ends with the connection error itself, which is no
    [TimeoutError]. *)
Lemma wait_port_never_bound_not_timeout :
  (forall i, get_outcome (refused_net i) = Raises connection_refused) /\
  _wait_for_server_startup (enough_fuel 1) refused_net 0 demo_url 1
    = Some (Reraised connection_refused) /\
  raised demo_url 1 (Reraised connection_refused) = Some connection_refused /\
  is_TimeoutError connection_refused = false.
Proof. repeat split. Qed.

(** C5: [last_exc] is bound only by a request that raised.  When no request
    that was made raised (in particular when every one was answered outside
    200-399, or when the timeout is not positive and none is made), the wait
    returns a success response or fails on the unbound variable; and as the
    exceptions that requests raise are truthy, the wait ends by returning,
    by re-raising the last exception caught or on the unbound variable, never
    with the generic [TimeoutError]. *)
Theorem generic_timeout_unreachable :
  forall (net : network) (start : Z) (url : string) (timeout : Z) (fuel : nat),
  (enough_fuel timeout <= fuel)%nat ->
  exists o,
    _wait_for_server_startup fuel net start url timeout = Some o /\
    ((forall i e, polled net start (start + timeout * 1000) i ->
                  get_outcome (net i) <> Raises e) ->
       (exists r, o = Returned r) \/
       (o = UnboundLocal /\
        raised url timeout o = Some (UnboundLocalError "last_exc"))) /\
    ((forall i, polled net start (start + timeout * 1000) i ->
                exists r, get_outcome (net i) = Responds r /\
                          ~ 200 <= status_code r < 400) ->
       o = UnboundLocal) /\
    (timeout <= 0 -> o = UnboundLocal) /\
    ((forall i e, get_outcome (net i) = Raises e -> exc_truthy e = true) ->
       ((exists r, o = Returned r) \/
        (exists e i, o = Reraised e /\
                     polled net start (start + timeout * 1000) i /\
                     get_outcome (net i) = Raises e) \/
        o = UnboundLocal) /\
       forall msg, o <> TimedOut msg).
Proof.
  intros net start url timeout fuel Hfuel.
  destruct (wait_enough_fuel url timeout net start fuel Hfuel) as (o & Ho & _).
  exists o. split; [assumption|].
  destruct (wait_sound url timeout net start fuel o Ho)
    as [(n & r0 & Hp & Hn & Hs & ->)|(n & Hg & ->)].
  - repeat split.
    + intros _. left. now exists r0.
    + intros Hbad. exfalso. destruct (Hbad n Hp) as (r & Hr & Hout).
      rewrite Hn in Hr. injection Hr as <-.
      apply Hout. now apply success_status_range.
    + intros Hto. exfalso. destruct Hp as [Hc _].
      pose proof (clock_at_mono net start 0 n ltac:(lia)) as Hm. simpl in Hm. lia.
    + left. now exists r0.
    + discriminate.
  - assert (Hnone : (forall i e, polled net start (start + timeout * 1000) i ->
                       get_outcome (net i) <> Raises e) ->
                    after_loop url timeout (last_raised net n) = UnboundLocal).
    { intros Hno. rewrite last_raised_none; [reflexivity|].
      intros i e Hi. apply Hno. eapply gives_up_polled; eassumption. }
    repeat split.
    + intros Hno. right. rewrite (Hnone Hno). split; reflexivity.
    + intros Hbad. apply Hnone. intros i e Hi He.
      destruct (Hbad i Hi) as (r & Hr & _). rewrite Hr in He. discriminate.
    + intros Hto. destruct n as [|n]; [reflexivity|].
      exfalso. destruct Hg as [_ Hprev].
      destruct (Hprev 0%nat ltac:(lia)) as [Hc _]. simpl in Hc. lia.
    + unfold after_loop. destruct (last_raised net n) as [e|] eqn:He.
      * destruct (last_raised_from net n e He) as (i & Hi & Hr & _).
        rewrite (H i e Hr). right. left. exists e, i.
        repeat split; try assumption; eapply gives_up_polled; eassumption.
      * right. right. reflexivity.
    + intros msg. unfold after_loop. destruct (last_raised net n) as [e|] eqn:He.
      * destruct (last_raised_from net n e He) as (i & Hi & Hr & _).
        rewrite (H i e Hr). discriminate.
      * discriminate.
Qed.

Lemma generic_timeout_unreachable_witness :
  (enough_fuel 1 <= enough_fuel 1)%nat /\
  exists o,
    _wait_for_server_startup (enough_fuel 1) unavailable_net 0 demo_url 1 = Some o /\
    ((forall i e, polled unavailable_net 0 (0 + 1 * 1000) i ->
                  get_outcome (unavailable_net i) <> Raises e) ->
       (exists r, o = Returned r) \/
       (o = UnboundLocal /\
        raised demo_url 1 o = Some (UnboundLocalError "last_exc"))) /\
    ((forall i, polled unavailable_net 0 (0 + 1 * 1000) i ->
                exists r, get_outcome (unavailable_net i) = Responds r /\
                          ~ 200 <= status_code r < 400) ->
       o = UnboundLocal) /\
    (1 <= 0 -> o = UnboundLocal) /\
    ((forall i e, get_outcome (unavailable_net i) = Raises e ->
                  exc_truthy e = true) ->
       ((exists r, o = Returned r) \/
        (exists e i, o = Reraised e /\
                     polled unavailable_net 0 (0 + 1 * 1000) i /\
                     get_outcome (unavailable_net i) = Raises e) \/
        o = UnboundLocal) /\
       forall msg, o <> TimedOut msg).
Proof.
  split; [apply le_n|].
  apply (generic_timeout_unreachable unavailable_net 0 demo_url 1 (enough_fuel 1)).
  apply le_n.
Defined.

Example always_503_hits_unbound_local :
  _wait_for_server_startup (enough_fuel 1) unavailable_net 0 demo_url 1
  = Some UnboundLocal.
Proof. vm_compute. reflexivity. Qed.

Example nonpositive_timeout_hits_unbound_local :
  _wait_for_server_startup (enough_fuel 0) refused_net 0 demo_url 0
  = Some UnboundLocal.
Proof. vm_compute. reflexivity. Qed.

(** C10: for every timeout and every behaviour of the network the wait ends,
    by returning a response or by raising; a request is only made while fewer
    than ten per second of timeout were made before it, and the number of
    loop tests computed from the timeout alone is enough. *)
Theorem wait_terminates :
  forall (net : network) (start : Z) (url : string) (timeout : Z) (fuel : nat),
  (enough_fuel timeout <= fuel)%nat ->
  exists o,
    _wait_for_server_startup fuel net start url timeout = Some o /\
    _wait_for_server_startup (enough_fuel timeout) net start url timeout = Some o /\
    ((exists r, o = Returned r) \/ (exists e, raised url timeout o = Some e)) /\
    (forall i, polled net start (start + timeout * 1000) i ->
               Z.of_nat i < 10 * timeout).
Proof.
  intros net start url timeout fuel Hfuel.
  destruct (wait_enough_fuel url timeout net start fuel Hfuel) as (o & Ho & Ho').
  exists o. repeat split; try assumption.
  - destruct o as [r|e| |msg]; [left|right|right|right]; simpl; eauto.
  - intros i [Hc _]. pose proof (clock_at_lower net start i) as Hl.
    unfold sleep_interval_ms in Hl. lia.
Qed.

Lemma wait_terminates_witness :
  (enough_fuel 10 <= enough_fuel 10)%nat /\
  exists o,
    _wait_for_server_startup (enough_fuel 10) refused_net 0 demo_url 10 = Some o /\
    _wait_for_server_startup (enough_fuel 10) refused_net 0 demo_url 10 = Some o /\
    ((exists r, o = Returned r) \/ (exists e, raised demo_url 10 o = Some e)) /\
    (forall i, polled refused_net 0 (0 + 10 * 1000) i -> Z.of_nat i < 10 * 10).
Proof.
  split; [apply le_n|].
  apply (wait_terminates refused_net 0 demo_url 10 (enough_fuel 10)).
  apply le_n.
Defined.

(** * Properties of the fixture *)

Lemma str_app_nil_r (s : string) : s ++ "" = s.
Proof. induction s as [|c s IH]; simpl; [reflexivity|now rewrite IH]. Qed.

Lemma str_app_assoc (a b c : string) : (a ++ b) ++ c = a ++ (b ++ c).
Proof. induction a as [|x a IH]; simpl; [reflexivity|now rewrite IH]. Qed.

Lemma tokens_no_blank (d acc : string) :
  no_blank d = true -> tokens (Some acc) d = [acc ++ d].
Proof.
  revert acc. induction d as [|c d IH]; intros acc H; simpl.
  - now rewrite str_app_nil_r.
  - simpl in H. apply andb_true_iff in H as [Hc Hd].
    apply negb_true_iff in Hc. rewrite Hc.
    rewrite (IH _ Hd), str_app_assoc. reflexivity.
Qed.

Lemma tokens_word (d : string) :
  d <> "" -> no_blank d = true -> tokens None d = [d].
Proof.
  destruct d as [|c d]; [congruence|]. intros _ H. simpl in *.
  apply andb_true_iff in H as [Hc Hd]. apply negb_true_iff in Hc.
  rewrite Hc. now rewrite (tokens_no_blank d _ Hd).
Qed.

Lemma uint_no_blank (u : Decimal.uint) :
  no_blank (NilEmpty.string_of_uint u) = true.
Proof. induction u; simpl; auto. Qed.

Lemma nilzero_uint_no_blank (u : Decimal.uint) :
  no_blank (NilZero.string_of_uint u) = true.
Proof. destruct u; [reflexivity|exact (uint_no_blank _)..]. Qed.

Lemma nilzero_uint_nonempty (u : Decimal.uint) :
  NilZero.string_of_uint u <> "".
Proof. destruct u; simpl; discriminate. Qed.

Lemma str_int_no_blank (n : Z) : no_blank (str_int n) = true.
Proof.
  unfold str_int, NilZero.string_of_int.
  destruct (Z.to_int n) as [u|u].
  - apply nilzero_uint_no_blank.
  - change (negb (is_blank "-") && no_blank (NilZero.string_of_uint u) = true).
    rewrite nilzero_uint_no_blank. reflexivity.
Qed.

Lemma str_int_nonempty (n : Z) : str_int n <> "".
Proof.
  unfold str_int, NilZero.string_of_int.
  destruct (Z.to_int n) as [u|u]; [apply nilzero_uint_nonempty|discriminate].
Qed.

(** The command line the fixture hands to [Popen], for every port. *)
Lemma shlex_split_command (port : Z) :
  shlex_split ("uv run custom-mcp-server --port " ++ str_int port)
  = server_command port.
Proof.
  unfold shlex_split, server_command. simpl.
  rewrite (tokens_word _ (str_int_nonempty port) (str_int_no_blank port)).
  reflexivity.
Qed.

Example command_for_port_8000 :
  shlex_split ("uv run custom-mcp-server --port " ++ str_int 8000)
  = ["uv"; "run"; "custom-mcp-server"; "--port"; "8000"].
Proof. reflexivity. Qed.

Ltac run_fixture :=
  unfold run_mcp_server_setup, run_mcp_server_teardown, try_finally, try_except,
    bind, ret, raise, _find_free_port, Popen, proc_terminate, killpg, proc_wait,
    wait_for_startup, of_status, graceful_step_failed;
  cbn beta iota.

(** C7: for every port the fixture is given, the server is started as
    [uv run custom-mcp-server --port N] with [os.setsid] run in the child (a
    new session, hence a new process group); the outcome of [Popen] does not
    depend on the network or the clock, and waiting for readiness is a call
    of its own that follows a successful spawn. *)
Theorem setup_spawns_server_with_port :
  forall (fuel : nat) (env : os_env) (log : list event) (port : Z),
  os_free_port env = inr port ->
  shlex_split ("uv run custom-mcp-server --port " ++ str_int port)
    = ["uv"; "run"; "custom-mcp-server"; "--port"; str_int port] /\
  (forall env', os_popen env' = os_popen env ->
     Popen (server_command port) env' log = Popen (server_command port) env log) /\
  exists rest,
    snd (run_mcp_server_setup fuel env log)
      = (log ++ EvFindFreePort :: EvPopen (server_command port) true :: rest)%list /\
    (forall pid, os_popen env (server_command port) = inr pid ->
       exists rest',
         rest = EvWaitForStartup (server_url port) default_timeout :: rest') /\
    (forall e, os_popen env (server_command port) = inl e ->
       rest = [] /\ fst (run_mcp_server_setup fuel env log) = Exc e).
Proof.
  intros fuel env log port Hport. split; [apply shlex_split_command|]. split.
  - intros env' Heq. unfold Popen. now rewrite Heq.
  - run_fixture. rewrite Hport, shlex_split_command.
    change ("http://" ++ host ++ ":" ++ str_int port) with (server_url port).
    destruct (os_popen env (server_command port)) as [e|pid].
    + exists []. rewrite <- app_assoc. cbn [fst snd app].
      split; [reflexivity|]. split; [discriminate|].
      intros e' [= <-]. split; reflexivity.
    + destruct (_wait_for_server_startup fuel (os_net env) (os_clock env)
                  (server_url port) default_timeout) as [[r|e| |msg]|];
        cbn [of_outcome];
        try destruct (os_terminate env pid);
        repeat rewrite <- app_assoc; cbn [fst snd app];
        eexists; (split; [reflexivity|]); (split; [eauto|discriminate]).
Qed.

Lemma setup_spawns_server_with_port_witness :
  shlex_split ("uv run custom-mcp-server --port " ++ str_int 8000)
    = ["uv"; "run"; "custom-mcp-server"; "--port"; str_int 8000] /\
  (forall env', os_popen env' = os_popen healthy_env ->
     Popen (server_command 8000) env' [] = Popen (server_command 8000) healthy_env []) /\
  exists rest,
    snd (run_mcp_server_setup (enough_fuel default_timeout) healthy_env [])
      = ([] ++ EvFindFreePort :: EvPopen (server_command 8000) true :: rest)%list /\
    (forall pid, os_popen healthy_env (server_command 8000) = inr pid ->
       exists rest',
         rest = EvWaitForStartup (server_url 8000) default_timeout :: rest') /\
    (forall e, os_popen healthy_env (server_command 8000) = inl e ->
       rest = [] /\
       fst (run_mcp_server_setup (enough_fuel default_timeout) healthy_env [])
       = Exc e).
Proof.
  apply (setup_spawns_server_with_port (enough_fuel default_timeout)
           healthy_env [] 8000).
  reflexivity.
Defined.

Example healthy_setup_yields_url :
  run_mcp_server_setup (enough_fuel default_timeout) healthy_env []
  = (Val ("http://127.0.0.1:8000", 4242),
     [EvFindFreePort;
      EvPopen ["uv"; "run"; "custom-mcp-server"; "--port"; "8000"] true;
      EvWaitForStartup "http://127.0.0.1:8000" 10]).
Proof. vm_compute. reflexivity. Qed.




Example never_ready_setup_terminates :
  run_mcp_server_setup (enough_fuel default_timeout) never_ready_env []
  = (Exc connection_refused,
     [EvFindFreePort;
      EvPopen ["uv"; "run"; "custom-mcp-server"; "--port"; "8000"] true;
      EvWaitForStartup "http://127.0.0.1:8000" 10;
      EvTerminate 4242]).
Proof. vm_compute. reflexivity. Qed.

(** C6: the teardown sends SIGTERM to the process group and waits up to 10
    seconds; if the signal or that wait raises it sends SIGKILL to the group;
    in every case it ends with a wait of up to 5 seconds; it does nothing
    else. *)
Theorem teardown_step_sequence :
  forall (env : os_env) (proc : Z) (log : list event),
  snd (run_mcp_server_teardown proc env log)
  = (log ++
     match os_killpg env proc SIGTERM with
     | Some _ =>
         [EvKillpg proc SIGTERM; EvKillpg proc SIGKILL; EvWait proc 5]
     | None =>
         match os_wait env proc 10 with
         | Some _ =>
             [EvKillpg proc SIGTERM; EvWait proc 10;
              EvKillpg proc SIGKILL; EvWait proc 5]
         | None =>
             [EvKillpg proc SIGTERM; EvWait proc 10; EvWait proc 5]
         end
     end)%list.
Proof.
  intros env proc log. run_fixture.
  destruct (os_killpg env proc SIGTERM); [|destruct (os_wait env proc 10)];
    try destruct (os_killpg env proc SIGKILL);
    destruct (os_wait env proc 5);
    repeat rewrite <- app_assoc; reflexivity.
Qed.

(** C2, as the code has it: an exception of the SIGTERM delivery or of the
    10-second wait never leaves the teardown; an exception of the final
    5-second wait always does, and otherwise one of the SIGKILL delivery
    does; the teardown ends normally in the remaining cases. *)
Theorem teardown_propagates_only_late_errors :
  forall (env : os_env) (proc : Z) (log : list event),
  fst (run_mcp_server_teardown proc env log)
  = match os_wait env proc 5 with
    | Some e => Exc e
    | None =>
        if graceful_step_failed env proc
        then of_status (os_killpg env proc SIGKILL)
        else Val tt
    end.
Proof.
  intros env proc log. run_fixture.
  destruct (os_killpg env proc SIGTERM); [|destruct (os_wait env proc 10)];
    try destruct (os_killpg env proc SIGKILL);
    destruct (os_wait env proc 5); reflexivity.
Qed.

(** C2 as stated fails: when the server ignores the signals, the final wait
    times out and its [TimeoutExpired] leaves the teardown. *)
Lemma teardown_final_wait_raises :
  run_mcp_server_teardown 4242 stuck_env []
  = (Exc timeout_expired,
     [EvKillpg 4242 SIGTERM; EvWait 4242 10;
      EvKillpg 4242 SIGKILL; EvWait 4242 5]).
Proof. reflexivity. Qed.

Example teardown_group_gone_raises :
  run_mcp_server_teardown 4242 gone_env []
  = (Exc process_lookup_error,
     [EvKillpg 4242 SIGTERM; EvKillpg 4242 SIGKILL; EvWait 4242 5]).
Proof. reflexivity. Qed.

Example teardown_healthy :
  run_mcp_server_teardown 4242 healthy_env []
  = (Val tt, [EvKillpg 4242 SIGTERM; EvWait 4242 10; EvWait 4242 5]).
Proof. reflexivity. Qed.

(** * Properties of the exploratory script *)

Section ScriptFacts.

Variable number : Type.
Variable literal : string -> number.
Variable py_eq : QueryRemote.json number -> QueryRemote.json number -> bool.
Variable py_str : QueryRemote.json number -> string.
Variable num_truthy : number -> bool.
Variable json_loads : string -> exn + QueryRemote.json number.

#[warnings="-notation-for-abbreviation"] Local Notation main :=
  (QueryRemote.main number literal py_eq py_str num_truthy json_loads).
#[warnings="-notation-for-abbreviation"] Local Notation body_result :=
  (QueryRemote.body_result number literal py_eq py_str num_truthy json_loads).
#[warnings="-notation-for-abbreviation"] Local Notation try_body :=
  (QueryRemote.try_body number literal py_eq py_str num_truthy json_loads).
#[warnings="-notation-for-abbreviation"] Local Notation steps1to5 :=
  (QueryRemote.steps1to5 number literal py_eq py_str json_loads).
#[warnings="-notation-for-abbreviation"] Local Notation step6 :=
  (QueryRemote.step6 number literal py_eq py_str num_truthy json_loads).

Lemma header_returns (a : QueryRemote.arguments)
    (env : QueryRemote.remote number) (st : QueryRemote.state) :
  fst (QueryRemote.header number a env st) = inr tt.
Proof. reflexivity. Qed.

Lemma banner_printed (env : QueryRemote.remote number) (st : QueryRemote.state) :
  QueryRemote.for_each number QueryRemote.success_banner
    (QueryRemote.print number) env st
  = (inr tt,
     QueryRemote.mkState (QueryRemote.calls st)
       (QueryRemote.stdout st ++ QueryRemote.success_banner)%list).
Proof.
  unfold QueryRemote.success_banner. cbn [QueryRemote.for_each].
  unfold QueryRemote.bind, QueryRemote.print, QueryRemote.ret.
  cbn [QueryRemote.calls QueryRemote.stdout].
  repeat rewrite <- app_assoc. reflexivity.
Qed.

Lemma handler_printed (e : exn) (env : QueryRemote.remote number)
    (st : QueryRemote.state) :
  QueryRemote.handler number e env st
  = (inr tt,
     QueryRemote.mkState (QueryRemote.calls st)
       (QueryRemote.stdout st
        ++ [""; QueryRemote.rule_eq; ("✗ Error: " ++ exc_msg e)%string;
            QueryRemote.rule_eq])%list).
Proof.
  unfold QueryRemote.handler, QueryRemote.bind, QueryRemote.print.
  cbn [QueryRemote.calls QueryRemote.stdout].
  repeat rewrite <- app_assoc. reflexivity.
Qed.



(** C9: when the run reaches the job trigger and the payload that comes
    back has a false [success], the script prints the failure and the error,
    goes on to the success banner and ends with status 0. *)
Theorem failed_job_trigger_exits_0 :
  forall (a : QueryRemote.arguments) (env : QueryRemote.remote number)
         (id : Z) (st5 : QueryRemote.state) (result : QueryRemote.call_result)
         (text : string) (data v : QueryRemote.json number),
  steps1to5 a env (snd (QueryRemote.header number a env QueryRemote.initial))
    = (inr tt, st5) ->
  QueryRemote.arg_test_job_id a = Some id ->
  id <> 0 ->
  QueryRemote.remote_call_tool number env (QueryRemote.calls st5)
    "trigger_job_run"
    [("job_id", QueryRemote.num number literal (str_int id))] = inr result ->
  QueryRemote.content0_text result = inr text ->
  json_loads text = inr data ->
  QueryRemote.dict_get number data "success" = inr v ->
  QueryRemote.truthy number num_truthy v = false ->
  exists err,
    QueryRemote.dict_get number data "error" = inr err /\
    main a env
    = (0,
       (QueryRemote.stdout st5
        ++ ["Step 6: Testing trigger_job_run tool..."; QueryRemote.rule_dash;
            (QueryRemote.nl ++ "Triggering job run for job ID: " ++ str_int id)%string;
            "  ✗ Failed to trigger job";
            ("  Error: " ++ py_str err)%string;
            QueryRemote.rule_dash;
            "✓ trigger_job_run tool tested"; ""]
        ++ QueryRemote.success_banner)%list).
Proof.
  intros a env id st5 result text data v H5 Hid Hnz Hcall Htext Hloads Hget Hfalsy.
  assert (Herr : exists err, QueryRemote.dict_get number data "error" = inr err).
  { destruct data; try discriminate. simpl.
    destruct (QueryRemote.lookup number "error" fields); eauto. }
  destruct Herr as [err Herr]. exists err. split; [assumption|].
  unfold QueryRemote.main.
  pose proof (header_returns a env QueryRemote.initial) as Hh.
  destruct (QueryRemote.header number a env QueryRemote.initial) as [[e|u] st0];
    [discriminate|].
  cbn [snd] in H5.
  unfold QueryRemote.try_body, QueryRemote.bind at 1. rewrite H5.
  unfold QueryRemote.bind at 1.
  assert (H6 : step6 a env st5
    = (inr tt,
       QueryRemote.mkState (S (QueryRemote.calls st5))
         (QueryRemote.stdout st5
          ++ ["Step 6: Testing trigger_job_run tool..."; QueryRemote.rule_dash;
              (QueryRemote.nl ++ "Triggering job run for job ID: " ++ str_int id)%string;
              "  ✗ Failed to trigger job";
              ("  Error: " ++ py_str err)%string;
              QueryRemote.rule_dash;
              "✓ trigger_job_run tool tested"; ""])%list)).
  { unfold QueryRemote.step6, QueryRemote.job_id_given. rewrite Hid.
    destruct (Z.eqb_spec id 0) as [?|_]; [contradiction|].
    unfold QueryRemote.bind, QueryRemote.print, QueryRemote.call_tool,
      QueryRemote.lift.
    cbn [QueryRemote.calls QueryRemote.stdout].
    rewrite Hcall, Htext, Hloads, Hget, Hfalsy.
    cbn [QueryRemote.calls QueryRemote.stdout].
    rewrite Herr.
    cbn [QueryRemote.calls QueryRemote.stdout].
    repeat rewrite <- app_assoc. reflexivity. }
  rewrite H6, banner_printed.
  cbn [fst snd QueryRemote.stdout]. rewrite <- app_assoc. reflexivity.
Qed.

End ScriptFacts.

Lemma failed_job_trigger_exits_0_witness :
  exists err,
    QueryRemote.dict_get string QueryRemote.job_failed_payload "error" = inr err /\
    QueryRemote.demo_main QueryRemote.demo_args QueryRemote.demo_remote
    = (0,
       (QueryRemote.stdout QueryRemote.demo_state_before_trigger
        ++ ["Step 6: Testing trigger_job_run tool..."; QueryRemote.rule_dash;
            (QueryRemote.nl ++ "Triggering job run for job ID: "
             ++ str_int 999999999)%string;
            "  ✗ Failed to trigger job";
            ("  Error: " ++ QueryRemote.demo_py_str err)%string;
            QueryRemote.rule_dash;
            "✓ trigger_job_run tool tested"; ""]
        ++ QueryRemote.success_banner)%list).
Proof.
  unfold QueryRemote.demo_main.
  apply (failed_job_trigger_exits_0 string (fun s => s) QueryRemote.demo_py_eq
           QueryRemote.demo_py_str QueryRemote.demo_num_truthy
           QueryRemote.demo_json_loads QueryRemote.demo_args
           QueryRemote.demo_remote 999999999
           QueryRemote.demo_state_before_trigger
           (QueryRemote.text_result "job failed") "job failed"
           QueryRemote.job_failed_payload (QueryRemote.JBool false)).
  - vm_compute. reflexivity.
  - reflexivity.
  - discriminate.
  - vm_compute. reflexivity.
  - reflexivity.
  - reflexivity.
  - reflexivity.
  - reflexivity.
Defined.

Example run_with_failed_trigger :
  let (status, out) :=
    QueryRemote.demo_main QueryRemote.demo_args QueryRemote.demo_remote in
  status = 0 /\
  QueryRemote.last_lines 8 out
  = ["  ✗ Failed to trigger job"; "  Error: Job 999999999 does not exist";
     QueryRemote.rule_dash; "✓ trigger_job_run tool tested"; "";
     QueryRemote.rule_eq; "✓ All Tests Passed!"; QueryRemote.rule_eq].
Proof. vm_compute. split; reflexivity. Qed.

Example run_with_rejected_token :
  let (status, out) :=
    QueryRemote.demo_main QueryRemote.demo_args QueryRemote.unauthorized_remote in
  status = 1 /\
  QueryRemote.last_lines 4 out
  = [""; QueryRemote.rule_eq; "✗ Error: Invalid access token"; QueryRemote.rule_eq].
Proof. vm_compute. split; reflexivity. Qed.

Example run_with_failing_tool_call :
  let (status, out) :=
    QueryRemote.demo_main QueryRemote.demo_args QueryRemote.broken_tool_remote in
  status = 1 /\
  QueryRemote.last_lines 4 out
  = [""; QueryRemote.rule_eq; "✗ Error: Connection closed"; QueryRemote.rule_eq].
Proof. vm_compute. split; reflexivity. Qed.

Example run_with_wrong_sum :
  let (status, out) :=
    QueryRemote.demo_main QueryRemote.demo_args QueryRemote.wrong_sum_remote in
  status = 1 /\
  QueryRemote.last_lines 5 out
  = ["  ✗ FAIL"; ""; QueryRemote.rule_eq;
     "✗ Error: Expected 8.0 but got 9.0"; QueryRemote.rule_eq].
Proof. vm_compute. split; reflexivity. Qed.

(** * Further properties of the readiness wait *)

Lemma last_raised_kept (net : network) (n i : nat) (e : exn) :
  (i < n)%nat -> get_outcome (net i) = Raises e ->
  (forall j, (i < j < n)%nat -> exists r, get_outcome (net j) = Responds r) ->
  last_raised net n = Some e.
Proof.
  induction n as [|n IH]; intros Hi He Hlater; [lia|].
  destruct (Nat.eq_dec i n) as [->|Hne].
  - now apply last_raised_raises.
  - destruct (Hlater n ltac:(lia)) as [r Hr].
    rewrite (last_raised_responds net n r Hr).
    apply IH; [lia|assumption|].
    intros j Hj. apply Hlater. lia.
Qed.

(** What the wait does once the schedule says that it gives up. *)
Lemma wait_gives_up (net : network) (start : Z) (url : string) (timeout : Z)
    (fuel n : nat) :
  (enough_fuel timeout <= fuel)%nat ->
  gives_up_after net start (start + timeout * 1000) n ->
  _wait_for_server_startup fuel net start url timeout
  = Some (after_loop url timeout (last_raised net n)).
Proof.
  intros Hfuel Hg.
  destruct (wait_enough_fuel url timeout net start fuel Hfuel) as (o & Ho & _).
  rewrite Ho. f_equal.
  destruct (wait_sound url timeout net start fuel o Ho)
    as [(m & r & Hp & Hm & Hs & _)|(m & Hgm & ->)].
  - exfalso. apply (gives_up_excludes_success timeout net start n m Hg Hp).
    unfold succeeds. now rewrite Hm.
  - now rewrite (gives_up_unique timeout net start n m Hg Hgm).
Qed.

(** The schedule of a server that never answers with a success ends. *)
Lemma never_ready_gives_up (net : network) (start : Z) (url : string)
    (timeout : Z) :
  (forall i, polled net start (start + timeout * 1000) i ->
             succeeds (net i) = false) ->
  exists n, gives_up_after net start (start + timeout * 1000) n.
Proof.
  intros Hnever.
  destruct (wait_enough_fuel url timeout net start _ (le_n _)) as (o & Ho & _).
  destruct (wait_sound url timeout net start _ o Ho)
    as [(m & r & Hp & Hm & Hs & _)|(m & Hgm & _)].
  - exfalso. specialize (Hnever m Hp). unfold succeeds in Hnever.
    rewrite Hm, Hs in Hnever. discriminate.
  - now exists m.
Qed.

(** A response outside 200-399 does not clear [last_exc]: when the wait gives
    up, the exception of an early request is re-raised even though every
    later request was answered. *)
Theorem wait_reraises_stale_exception :
  forall (net : network) (start : Z) (url : string) (timeout : Z)
         (fuel n i : nat) (e : exn),
  (enough_fuel timeout <= fuel)%nat ->
  gives_up_after net start (start + timeout * 1000) n ->
  (i < n)%nat ->
  get_outcome (net i) = Raises e ->
  exc_truthy e = true ->
  (forall j, (i < j < n)%nat -> exists r, get_outcome (net j) = Responds r) ->
  _wait_for_server_startup fuel net start url timeout = Some (Reraised e).
Proof.
  intros net start url timeout fuel n i e Hfuel Hg Hi He Ht Hlater.
  rewrite (wait_gives_up net start url timeout fuel n Hfuel Hg).
  rewrite (last_raised_kept net n i e Hi He Hlater).
  unfold after_loop. now rewrite Ht.
Qed.

Lemma recovering_net_gives_up :
  gives_up_after Lifecycle.recovering_net 0 (0 + 1 * 1000) 10.
Proof.
  split; [vm_compute; discriminate|].
  intros j Hj.
  do 10 (destruct j as [|j]; [split; reflexivity|]). lia.
Qed.

Lemma wait_reraises_stale_exception_witness :
  _wait_for_server_startup (enough_fuel 1) Lifecycle.recovering_net 0 demo_url 1
  = Some (Reraised connection_refused).
Proof.
  apply (wait_reraises_stale_exception Lifecycle.recovering_net 0 demo_url 1
           (enough_fuel 1) 10 0 connection_refused).
  - apply le_n.
  - exact recovering_net_gives_up.
  - lia.
  - reflexivity.
  - reflexivity.
  - intros j Hj. destruct j as [|j]; [lia|].
    exists (mkResponse 503 "starting"). reflexivity.
Defined.

(** The deadline is only looked at between rounds: a wait that never sees a
    success gives up after at least one request (for a positive timeout), at
    or after the deadline and less than one round past it. *)
Theorem wait_gives_up_within_one_round :
  forall (net : network) (start : Z) (url : string) (timeout : Z) (fuel : nat),
  (enough_fuel timeout <= fuel)%nat ->
  0 < timeout ->
  (forall i, polled net start (start + timeout * 1000) i ->
             succeeds (net i) = false) ->
  exists n,
    (0 < n)%nat /\
    gives_up_after net start (start + timeout * 1000) n /\
    _wait_for_server_startup fuel net start url timeout
      = Some (after_loop url timeout (last_raised net n)) /\
    start + timeout * 1000 <= clock_at net start n
      < start + timeout * 1000 + Lifecycle.round_ms net (pred n).
Proof.
  intros net start url timeout fuel Hfuel Hpos Hnever.
  destruct (never_ready_gives_up net start url timeout Hnever) as [n Hg].
  exists n.
  assert (Hn : (0 < n)%nat).
  { destruct n as [|n]; [|lia]. destruct Hg as [Hd _]. simpl in Hd. lia. }
  split; [assumption|]. split; [assumption|].
  split; [now apply wait_gives_up|].
  split; [apply Hg|].
  destruct n as [|n]; [lia|]. destruct Hg as [_ Hprev].
  destruct (Hprev n ltac:(lia)) as [Hc _].
  unfold Lifecycle.round_ms. cbn [pred clock_at]. lia.
Qed.

Lemma wait_gives_up_within_one_round_witness :
  exists n,
    (0 < n)%nat /\
    gives_up_after refused_net 0 (0 + 1 * 1000) n /\
    _wait_for_server_startup (enough_fuel 1) refused_net 0 demo_url 1
      = Some (after_loop demo_url 1 (last_raised refused_net n)) /\
    0 + 1 * 1000 <= clock_at refused_net 0 n
      < 0 + 1 * 1000 + Lifecycle.round_ms refused_net (pred n).
Proof.
  apply (wait_gives_up_within_one_round refused_net 0 demo_url 1 (enough_fuel 1)).
  - apply le_n.
  - lia.
  - intros i _. reflexivity.
Defined.

(** * Further properties of the fixture *)

(** The wait returns as soon as the schedule holds a success before the
    deadline. *)
Lemma wait_returns_when_ready (net : network) (start : Z) (url : string)
    (timeout : Z) (fuel i : nat) (r : response) :
  (enough_fuel timeout <= fuel)%nat ->
  clock_at net start i < start + timeout * 1000 ->
  get_outcome (net i) = Responds r ->
  200 <= status_code r < 400 ->
  exists r0, _wait_for_server_startup fuel net start url timeout
             = Some (Returned r0).
Proof.
  intros Hfuel Hclock Hout Hrange.
  assert (Hsucc : succeeds (net i) = true).
  { unfold succeeds. rewrite Hout. now apply success_status_range. }
  destruct (wait_enough_fuel url timeout net start fuel Hfuel) as (o & Ho & _).
  destruct (wait_sound url timeout net start fuel o Ho)
    as [(n & r0 & _ & _ & _ & ->)|(n & Hg & _)]; [now exists r0|].
  exfalso. destruct Hg as [Hd Hprev].
  destruct (Nat.lt_ge_cases i n) as [Hlt|Hge].
  - destruct (Hprev i Hlt) as [_ Hf]. rewrite Hf in Hsucc. discriminate.
  - pose proof (clock_at_mono net start n i Hge). lia.
Qed.

(** Whatever happens, the part before the [yield] neither signals the
    process group nor waits for the process. *)
Lemma setup_events_no_teardown (fuel : nat) (env : os_env) (log : list event) :
  exists evs,
    snd (run_mcp_server_setup fuel env log) = (log ++ evs)%list /\
    forallb (fun ev => negb (Lifecycle.is_teardown_event ev)) evs = true.
Proof.
  run_fixture.
  destruct (os_free_port env) as [e|port];
    [exists [EvFindFreePort]; split; reflexivity|].
  match goal with
  | |- context [os_popen env ?c] => destruct (os_popen env c) as [e|pid]
  end.
  { eexists. split; [rewrite <- app_assoc; reflexivity|reflexivity]. }
  match goal with
  | |- context [_wait_for_server_startup ?f ?n ?c ?u ?t] =>
      destruct (_wait_for_server_startup f n c u t) as [[r|e| |msg]|]
  end; cbn [of_outcome]; try destruct (os_terminate env pid);
    eexists; (split; [repeat rewrite <- app_assoc; reflexivity|reflexivity]).
Qed.

(** When the server answers with a status in 200-399 before the deadline,
    the fixture yields the url of the port it chose; it has found a port,
    spawned the server and waited, and has sent no signal. *)
Theorem setup_yields_url_when_ready :
  forall (fuel : nat) (env : os_env) (log : list event) (port pid : Z)
         (i : nat) (r : response),
  (enough_fuel default_timeout <= fuel)%nat ->
  os_free_port env = inr port ->
  os_popen env (server_command port) = inr pid ->
  clock_at (os_net env) (os_clock env) i
    < os_clock env + default_timeout * 1000 ->
  get_outcome (os_net env i) = Responds r ->
  200 <= status_code r < 400 ->
  run_mcp_server_setup fuel env log
  = (Val (server_url port, pid),
     (log ++ [EvFindFreePort; EvPopen (server_command port) true;
              EvWaitForStartup (server_url port) default_timeout])%list).
Proof.
  intros fuel env log port pid i r Hfuel Hport Hpid Hclock Hout Hrange.
  destruct (wait_returns_when_ready (os_net env) (os_clock env)
              (server_url port) default_timeout fuel i r
              Hfuel Hclock Hout Hrange) as [r0 Hr0].
  run_fixture. rewrite Hport, shlex_split_command, Hpid.
  change ("http://" ++ host ++ ":" ++ str_int port) with (server_url port).
  rewrite Hr0. cbn [of_outcome].
  repeat rewrite <- app_assoc. reflexivity.
Qed.

Lemma setup_yields_url_when_ready_witness :
  run_mcp_server_setup (enough_fuel default_timeout) healthy_env []
  = (Val (server_url 8000, 4242),
     ([] ++ [EvFindFreePort; EvPopen (server_command 8000) true;
             EvWaitForStartup (server_url 8000) default_timeout])%list).
Proof.
  apply (setup_yields_url_when_ready (enough_fuel default_timeout) healthy_env
           [] 8000 4242 4 ready_response).
  - apply le_n.
  - reflexivity.
  - reflexivity.
  - vm_compute. reflexivity.
  - reflexivity.
  - cbn. lia.
Defined.

(** A session whose server becomes ready: the part after the [yield] acts on
    the pid that [Popen] returned, after the three events of the start, and
    its outcome is the outcome of the session. *)
Theorem session_tears_down_spawned_process :
  forall (fuel : nat) (env : os_env) (log : list event) (port pid : Z)
         (i : nat) (r : response),
  (enough_fuel default_timeout <= fuel)%nat ->
  os_free_port env = inr port ->
  os_popen env (server_command port) = inr pid ->
  clock_at (os_net env) (os_clock env) i
    < os_clock env + default_timeout * 1000 ->
  get_outcome (os_net env i) = Responds r ->
  200 <= status_code r < 400 ->
  Lifecycle.run_mcp_server fuel env log
  = run_mcp_server_teardown pid env
      (log ++ [EvFindFreePort; EvPopen (server_command port) true;
               EvWaitForStartup (server_url port) default_timeout])%list /\
  exists evs,
    snd (Lifecycle.run_mcp_server fuel env log)
    = (log ++ [EvFindFreePort; EvPopen (server_command port) true;
               EvWaitForStartup (server_url port) default_timeout;
               EvKillpg pid SIGTERM] ++ evs ++ [EvWait pid 5])%list /\
    forall ev, In ev evs -> ev = EvWait pid 10 \/ ev = EvKillpg pid SIGKILL.
Proof.
  intros fuel env log port pid i r Hfuel Hport Hpid Hclock Hout Hrange.
  destruct (wait_returns_when_ready (os_net env) (os_clock env)
              (server_url port) default_timeout fuel i r
              Hfuel Hclock Hout Hrange) as [r0 Hr0].
  assert (Hrun : Lifecycle.run_mcp_server fuel env log
    = run_mcp_server_teardown pid env
        (log ++ [EvFindFreePort; EvPopen (server_command port) true;
                 EvWaitForStartup (server_url port) default_timeout])%list).
  { unfold Lifecycle.run_mcp_server. unfold bind at 1.
    replace (run_mcp_server_setup fuel env log)
      with (Val (server_url port, pid),
            (log ++ [EvFindFreePort; EvPopen (server_command port) true;
                     EvWaitForStartup (server_url port) default_timeout])%list);
      [reflexivity|].
    symmetry. run_fixture. rewrite Hport, shlex_split_command, Hpid.
    change ("http://" ++ host ++ ":" ++ str_int port) with (server_url port).
    rewrite Hr0. cbn [of_outcome].
    repeat rewrite <- app_assoc. reflexivity. }
  split; [exact Hrun|]. rewrite Hrun. run_fixture.
  destruct (os_killpg env pid SIGTERM); [|destruct (os_wait env pid 10)];
    try destruct (os_killpg env pid SIGKILL);
    destruct (os_wait env pid 5); cbn [snd];
    repeat rewrite <- app_assoc; cbn [app];
    first
      [ exists [EvKillpg pid SIGKILL]; split; [reflexivity|];
        intros ev [<-|[]]; now right
      | exists [EvWait pid 10; EvKillpg pid SIGKILL]; split; [reflexivity|];
        intros ev [<-|[<-|[]]]; [now left|now right]
      | exists [EvWait pid 10]; split; [reflexivity|];
        intros ev [<-|[]]; now left ].
Qed.

Lemma session_tears_down_spawned_process_witness :
  Lifecycle.run_mcp_server (enough_fuel default_timeout) healthy_env []
  = run_mcp_server_teardown 4242 healthy_env
      ([] ++ [EvFindFreePort; EvPopen (server_command 8000) true;
              EvWaitForStartup (server_url 8000) default_timeout])%list /\
  exists evs,
    snd (Lifecycle.run_mcp_server (enough_fuel default_timeout) healthy_env [])
    = ([] ++ [EvFindFreePort; EvPopen (server_command 8000) true;
              EvWaitForStartup (server_url 8000) default_timeout;
              EvKillpg 4242 SIGTERM] ++ evs ++ [EvWait 4242 5])%list /\
    forall ev, In ev evs -> ev = EvWait 4242 10 \/ ev = EvKillpg 4242 SIGKILL.
Proof.
  apply (session_tears_down_spawned_process (enough_fuel default_timeout)
           healthy_env [] 8000 4242 4 ready_response).
  - apply le_n.
  - reflexivity.
  - reflexivity.
  - vm_compute. reflexivity.
  - reflexivity.
  - cbn. lia.
Defined.

(** The port reaches the command line unharmed: the last of the arguments
    that [shlex.split] produces reads back as the port, so different ports
    give different command lines. *)
Theorem port_argument_round_trip :
  forall port : Z,
  option_map Z.of_int
    (NilZero.int_of_string
       (last (shlex_split (Lifecycle.command_line port)) ""))
  = Some port /\
  forall q : Z,
    shlex_split (Lifecycle.command_line q)
    = shlex_split (Lifecycle.command_line port) -> q = port.
Proof.
  intros port.
  assert (Hread : forall z,
            option_map Z.of_int
              (NilZero.int_of_string
                 (last (shlex_split (Lifecycle.command_line z)) ""))
            = Some z).
  { intros z. unfold Lifecycle.command_line.
    rewrite shlex_split_command. unfold server_command. cbn [last].
    unfold str_int. rewrite NilZero.isi.
    - cbn [option_map]. now rewrite DecimalZ.of_to.
    - destruct z; simpl; try discriminate.
      intros [= H]. now apply (Unsigned.to_uint_nonnil p).
    - destruct z; simpl; try discriminate.
      intros [= H]. now apply (Unsigned.to_uint_nonnil p). }
  split; [apply Hread|].
  intros q Heq. pose proof (Hread q) as Hq. rewrite Heq, Hread in Hq.
  now injection Hq.
Qed.

(** * Further properties of the exploratory script *)

Section Footprint.

Variable number : Type.
Variable literal : string -> number.
Variable py_eq : QueryRemote.json number -> QueryRemote.json number -> bool.
Variable py_str : QueryRemote.json number -> string.
Variable num_truthy : number -> bool.
Variable json_loads : string -> exn + QueryRemote.json number.
Variable a : QueryRemote.arguments.
Variables env env' : QueryRemote.remote number.
Hypothesis Hsame : ScriptRun.same_answers number literal a env env'.

Lemma agree_bind {A B : Type} (m : QueryRemote.M number A)
    (k : A -> QueryRemote.M number B) :
  (forall st, m env st = m env' st) ->
  (forall x st, k x env st = k x env' st) ->
  forall st, QueryRemote.bind number m k env st
             = QueryRemote.bind number m k env' st.
Proof.
  intros Hm Hk st. unfold QueryRemote.bind. rewrite Hm.
  destruct (m env' st) as [[e|x] st1]; [reflexivity|apply Hk].
Qed.

Lemma agree_for_each {A : Type} (l : list A) (f : A -> QueryRemote.M number unit) :
  (forall x, In x l -> forall st, f x env st = f x env' st) ->
  forall st, QueryRemote.for_each number l f env st
             = QueryRemote.for_each number l f env' st.
Proof.
  induction l as [|x l IH]; intros Hf; [reflexivity|].
  cbn [QueryRemote.for_each]. apply agree_bind.
  - apply Hf. now left.
  - intros _. apply IH. intros y Hy. apply Hf. now right.
Qed.

Lemma agree_call (tool_name : string)
    (args : list (string * QueryRemote.json number)) :
  ScriptRun.consulted number literal a tool_name args ->
  forall st, QueryRemote.call_tool number tool_name args env st
             = QueryRemote.call_tool number tool_name args env' st.
Proof.
  intros Hc st. unfold QueryRemote.call_tool.
  destruct Hsame as (_ & _ & _ & Hcalls). now rewrite (Hcalls _ _ _ Hc).
Qed.

(** Steps that do not call the remote side at all. *)
Ltac agree_pure :=
  repeat first
    [ reflexivity
    | apply agree_bind; [intros ?|intros ? ?]
    | match goal with
      | |- context [if ?c then _ else _] => destruct c
      end ].

Lemma agree_steps1to3 (st : QueryRemote.state) :
  QueryRemote.steps1to3 number a env st = QueryRemote.steps1to3 number a env' st.
Proof.
  destruct Hsame as (Hws & Hmcp & Htools & _).
  revert st. unfold QueryRemote.steps1to3.
  apply agree_bind; [reflexivity|intros _].
  apply agree_bind.
  { intros st. unfold QueryRemote.WorkspaceClient. now rewrite Hws. }
  intros _.
  do 4 (apply agree_bind; [reflexivity|intros _]).
  apply agree_bind.
  { intros st. unfold QueryRemote.DatabricksMCPClient. now rewrite Hmcp. }
  intros _.
  do 4 (apply agree_bind; [reflexivity|intros _]).
  apply agree_bind.
  { intros st. unfold QueryRemote.list_tools. now rewrite Htools. }
  intros tools st. reflexivity.
Qed.

Lemma agree_step4 (tools : QueryRemote.tool_seq) (st : QueryRemote.state) :
  QueryRemote.step4 number tools env st = QueryRemote.step4 number tools env' st.
Proof.
  revert st. unfold QueryRemote.step4.
  apply agree_bind; [reflexivity|intros _].
  apply agree_bind; [|intros _ st; reflexivity].
  apply agree_for_each. intros t _.
  destruct (QueryRemote.in_list (QueryRemote.name t) QueryRemote.skipped_tools)
    eqn:Hskip; [reflexivity|].
  do 2 (apply agree_bind; [reflexivity|intros _]).
  apply agree_bind; [|intros r st; agree_pure].
  apply agree_call. left. now split.
Qed.

Lemma agree_add_numbers_case (i : Z) (x y expected : string) :
  In (x, y, expected) QueryRemote.test_cases ->
  forall st,
    QueryRemote.add_numbers_case number literal py_eq py_str json_loads
      (i, (x, y, expected)) env st
    = QueryRemote.add_numbers_case number literal py_eq py_str json_loads
        (i, (x, y, expected)) env' st.
Proof.
  intros Hin. unfold QueryRemote.add_numbers_case.
  apply agree_bind; [reflexivity|intros _].
  apply agree_bind; [|intros r st; agree_pure].
  apply agree_call. right. left. split; [reflexivity|].
  exists x, y, expected. now split.
Qed.

Lemma agree_step5 (st : QueryRemote.state) :
  QueryRemote.step5 number literal py_eq py_str json_loads env st
  = QueryRemote.step5 number literal py_eq py_str json_loads env' st.
Proof.
  revert st. unfold QueryRemote.step5.
  do 2 (apply agree_bind; [reflexivity|intros _]).
  apply agree_bind; [|intros _ st; reflexivity].
  apply agree_for_each. intros [i [[x y] expected]] Hin.
  apply agree_add_numbers_case.
  cbn in Hin. cbn.
  destruct Hin as [[= <- <- <- <-]|[[= <- <- <- <-]|[[= <- <- <- <-]|[]]]]; tauto.
Qed.

Lemma agree_step6 (st : QueryRemote.state) :
  QueryRemote.step6 number literal py_eq py_str num_truthy json_loads a env st
  = QueryRemote.step6 number literal py_eq py_str num_truthy json_loads a env' st.
Proof.
  revert st. unfold QueryRemote.step6.
  destruct (QueryRemote.job_id_given a) as [id|] eqn:Hid; [|reflexivity].
  do 3 (apply agree_bind; [reflexivity|intros _]).
  apply agree_bind; [|intros r st; agree_pure].
  apply agree_call. right. right. split; [reflexivity|].
  exists id. now split.
Qed.

Lemma agree_try_body (st : QueryRemote.state) :
  QueryRemote.try_body number literal py_eq py_str num_truthy json_loads a env st
  = QueryRemote.try_body number literal py_eq py_str num_truthy json_loads a
      env' st.
Proof.
  revert st. unfold QueryRemote.try_body.
  apply agree_bind.
  { unfold QueryRemote.steps1to5. apply agree_bind; [apply agree_steps1to3|].
    intros tools. apply agree_bind; [apply agree_step4|].
    intros _. apply agree_step5. }
  intros _. apply agree_bind; [apply agree_step6|].
  intros _ st. reflexivity.
Qed.

Lemma agree_main :
  QueryRemote.main number literal py_eq py_str num_truthy json_loads a env
  = QueryRemote.main number literal py_eq py_str num_truthy json_loads a env'.
Proof.
  unfold QueryRemote.main.
  replace (QueryRemote.header number a env' QueryRemote.initial)
    with (QueryRemote.header number a env QueryRemote.initial) by reflexivity.
  destruct (QueryRemote.header number a env QueryRemote.initial) as [[e|u] st0];
    [reflexivity|].
  rewrite agree_try_body.
  destruct (QueryRemote.try_body number literal py_eq py_str num_truthy
              json_loads a env' st0) as [[e|u'] st1]; reflexivity.
Qed.

End Footprint.

(** The run cannot tell apart two remote sides that answer alike the calls
    it makes: parameter-free calls of the tools outside the skip list, the
    three [add_numbers] calls of the test cases, and [trigger_job_run] for
    the job id given.  So [add_numbers] and [trigger_job_run] are never
    called without arguments, and no other tool is called with any. *)
Theorem main_only_consults_expected_calls :
  forall (number : Type) (literal : string -> number)
         (py_eq : QueryRemote.json number -> QueryRemote.json number -> bool)
         (py_str : QueryRemote.json number -> string)
         (num_truthy : number -> bool)
         (json_loads : string -> exn + QueryRemote.json number)
         (a : QueryRemote.arguments) (env env' : QueryRemote.remote number),
  ScriptRun.same_answers number literal a env env' ->
  QueryRemote.main number literal py_eq py_str num_truthy json_loads a env
  = QueryRemote.main number literal py_eq py_str num_truthy json_loads a env'.
Proof.
  intros. now apply agree_main.
Qed.

Lemma main_only_consults_expected_calls_witness :
  QueryRemote.demo_main QueryRemote.demo_args QueryRemote.demo_remote
  = QueryRemote.demo_main QueryRemote.demo_args ScriptRun.picky_remote.
Proof.
  unfold QueryRemote.demo_main.
  apply main_only_consults_expected_calls.
  repeat split; try reflexivity.
  intros n tool_name args [[-> Hskip]|[[-> (x & y & ex & _ & ->)]|[-> (id & _ & ->)]]].
  - cbn [ScriptRun.picky_remote QueryRemote.demo_remote
         QueryRemote.remote_call_tool]. now rewrite Hskip.
  - reflexivity.
  - reflexivity.
Defined.

(** A job id of 0 counts as no job id: with [--test-job-id 0], as without
    the option, the run does not depend on what the remote side would answer
    to [trigger_job_run]. *)
Theorem job_id_zero_skips_trigger :
  forall (number : Type) (literal : string -> number)
         (py_eq : QueryRemote.json number -> QueryRemote.json number -> bool)
         (py_str : QueryRemote.json number -> string)
         (num_truthy : number -> bool)
         (json_loads : string -> exn + QueryRemote.json number)
         (a : QueryRemote.arguments) (env env' : QueryRemote.remote number),
  QueryRemote.arg_test_job_id a = None \/ QueryRemote.arg_test_job_id a = Some 0 ->
  (forall h t, QueryRemote.new_workspace_client number env h t
               = QueryRemote.new_workspace_client number env' h t) ->
  (forall u, QueryRemote.new_mcp_client number env u
             = QueryRemote.new_mcp_client number env' u) ->
  QueryRemote.remote_list_tools number env
    = QueryRemote.remote_list_tools number env' ->
  (forall n tool_name args,
     tool_name <> "trigger_job_run" ->
     QueryRemote.remote_call_tool number env n tool_name args
     = QueryRemote.remote_call_tool number env' n tool_name args) ->
  QueryRemote.main number literal py_eq py_str num_truthy json_loads a env
  = QueryRemote.main number literal py_eq py_str num_truthy json_loads a env'.
Proof.
  intros number literal py_eq py_str num_truthy json_loads a env env'
         Hid Hws Hmcp Htools Hcalls.
  apply agree_main. repeat split; try assumption.
  intros n tool_name args [[-> Hskip]|[[-> _]|[-> (id & Hgiven & _)]]].
  - apply Hcalls. intros ->. discriminate.
  - apply Hcalls. discriminate.
  - exfalso. unfold QueryRemote.job_id_given in Hgiven.
    destruct Hid as [Hn|Hz]; [rewrite Hn in Hgiven|rewrite Hz in Hgiven];
      discriminate.
Qed.

Lemma job_id_zero_skips_trigger_witness :
  QueryRemote.demo_main ScriptRun.no_job_args QueryRemote.demo_remote
  = QueryRemote.demo_main ScriptRun.no_job_args
      (ScriptRun.remote_with_trigger
         (inl (mkExn "McpError" "Connection closed" true))).
Proof.
  unfold QueryRemote.demo_main.
  apply job_id_zero_skips_trigger; try reflexivity.
  - now right.
  - intros n tool_name args Hne.
    cbn [ScriptRun.remote_with_trigger QueryRemote.demo_remote
         QueryRemote.remote_call_tool].
    destruct (String.eqb_spec tool_name "trigger_job_run"); [contradiction|].
    reflexivity.
Defined.

Example run_with_job_id_zero :
  let (status, out) :=
    QueryRemote.demo_main ScriptRun.no_job_args QueryRemote.demo_remote in
  status = 0 /\
  QueryRemote.last_lines 5 out
  = ["Step 6: Skipping trigger_job_run test (no --test-job-id provided)"; "";
     QueryRemote.rule_eq; "✓ All Tests Passed!"; QueryRemote.rule_eq].
Proof. vm_compute. split; reflexivity. Qed.

Section ScriptMore.

Variable number : Type.
Variable literal : string -> number.
Variable py_eq : QueryRemote.json number -> QueryRemote.json number -> bool.
Variable py_str : QueryRemote.json number -> string.
Variable num_truthy : number -> bool.
Variable json_loads : string -> exn + QueryRemote.json number.

(** What is left of a run once step 5 is over. *)
Lemma main_after_steps1to5 (a : QueryRemote.arguments)
    (env : QueryRemote.remote number) (st5 : QueryRemote.state) :
  QueryRemote.steps1to5 number literal py_eq py_str json_loads a env
    (snd (QueryRemote.header number a env QueryRemote.initial)) = (inr tt, st5) ->
  QueryRemote.main number literal py_eq py_str num_truthy json_loads a env
  = match QueryRemote.step6 number literal py_eq py_str num_truthy json_loads
            a env st5 with
    | (inr _, st6) =>
        (0, (QueryRemote.stdout st6 ++ QueryRemote.success_banner)%list)
    | (inl e, st6) =>
        (1, (QueryRemote.stdout st6 ++ ScriptRun.error_lines e)%list)
    end.
Proof.
  intros H5. unfold QueryRemote.main.
  pose proof (header_returns number a env QueryRemote.initial) as Hh.
  destruct (QueryRemote.header number a env QueryRemote.initial) as [[e|u] st0];
    [discriminate|].
  cbn [snd] in H5.
  unfold QueryRemote.try_body, QueryRemote.bind at 1. rewrite H5.
  unfold QueryRemote.bind at 1.
  destruct (QueryRemote.step6 number literal py_eq py_str num_truthy json_loads
              a env st5) as [[e|u'] st6].
  - rewrite handler_printed. reflexivity.
  - rewrite banner_printed. reflexivity.
Qed.

(** One round of the loop over the test cases makes one call of
    [add_numbers], and passes exactly when the call succeeds, its first
    content decodes to a document with a ["result"] entry, and that entry
    equals the expected value. *)
Theorem add_numbers_case_passes_iff :
  forall (i : Z) (x y expected : string) (env : QueryRemote.remote number)
         (st : QueryRemote.state),
  let run :=
    QueryRemote.add_numbers_case number literal py_eq py_str json_loads
      (i, (x, y, expected)) env st in
  QueryRemote.calls (snd run) = S (QueryRemote.calls st) /\
  (fst run = inr tt <->
   exists data actual,
     ScriptRun.payload number json_loads
       (QueryRemote.remote_call_tool number env (QueryRemote.calls st)
          "add_numbers"
          [("a", QueryRemote.num number literal x);
           ("b", QueryRemote.num number literal y)]) = inr data /\
     QueryRemote.subscript number data "result" = inr actual /\
     py_eq actual (QueryRemote.num number literal expected) = true).
Proof.
  intros i x y expected env st. cbv zeta.
  unfold QueryRemote.add_numbers_case, QueryRemote.bind, QueryRemote.print,
    QueryRemote.call_tool, QueryRemote.lift, QueryRemote.raise,
    ScriptRun.payload.
  cbn [QueryRemote.calls QueryRemote.stdout].
  destruct (QueryRemote.remote_call_tool number env (QueryRemote.calls st)
              "add_numbers" _) as [e|result].
  { split; [reflexivity|]. split; [discriminate|].
    intros (d & v & H & _). discriminate. }
  destruct (QueryRemote.content0_text result) as [e|text].
  { split; [reflexivity|]. split; [discriminate|].
    intros (d & v & H & _). discriminate. }
  destruct (json_loads text) as [e|data].
  { split; [reflexivity|]. split; [discriminate|].
    intros (d & v & H & _). discriminate. }
  destruct (QueryRemote.subscript number data "result") as [e|actual] eqn:Hsub.
  { split; [reflexivity|]. split; [discriminate|].
    intros (d & v & [= <-] & Hv & _). rewrite Hsub in Hv. discriminate. }
  destruct (py_eq actual (QueryRemote.num number literal expected)) eqn:Heq.
  - split; [reflexivity|]. split; [|reflexivity].
    intros _. exists data, actual. now repeat split.
  - split; [reflexivity|]. split; [discriminate|].
    intros (d & v & [= <-] & Hv & Hp). rewrite Hsub in Hv.
    injection Hv as <-. rewrite Heq in Hp. discriminate.
Qed.

(** A connection that cannot be made ends the run at once, with status 1:
    when [WorkspaceClient] raises, nothing but the announcement of step 1
    and the error follows the header; when [DatabricksMCPClient] raises,
    the run stops in step 2.  No tool is listed or called. *)
Theorem connection_failure_output :
  forall (a : QueryRemote.arguments) (env : QueryRemote.remote number),
  match QueryRemote.new_workspace_client number env
          (QueryRemote.arg_host a) (QueryRemote.arg_token a) with
  | Some e =>
      QueryRemote.main number literal py_eq py_str num_truthy json_loads a env
      = (1,
         (ScriptRun.header_lines a
          ++ ["Step 1: Creating WorkspaceClient with OAuth token..."]
          ++ ScriptRun.error_lines e)%list)
  | None =>
      match QueryRemote.new_mcp_client number env
              (QueryRemote.arg_app_url a ++ "/mcp") with
      | Some e =>
          QueryRemote.main number literal py_eq py_str num_truthy json_loads
            a env
          = (1,
             (ScriptRun.header_lines a
              ++ ["Step 1: Creating WorkspaceClient with OAuth token...";
                  "✓ WorkspaceClient created successfully"; "";
                  (QueryRemote.arg_app_url a ++ "/mcp")%string;
                  ("Step 2: Connecting to MCP server at "
                   ++ (QueryRemote.arg_app_url a ++ "/mcp") ++ "...")%string]
              ++ ScriptRun.error_lines e)%list)
      | None => True
      end
  end.
Proof.
  intros a env.
  unfold QueryRemote.main, QueryRemote.try_body, QueryRemote.steps1to5,
    QueryRemote.steps1to3, QueryRemote.header, QueryRemote.handler,
    QueryRemote.bind, QueryRemote.print, QueryRemote.WorkspaceClient,
    QueryRemote.DatabricksMCPClient, QueryRemote.initial,
    ScriptRun.header_lines, ScriptRun.error_lines.
  cbn [QueryRemote.calls QueryRemote.stdout app].
  destruct (QueryRemote.new_workspace_client number env
              (QueryRemote.arg_host a) (QueryRemote.arg_token a)) as [e|];
    [reflexivity|].
  cbn [QueryRemote.calls QueryRemote.stdout app].
  destruct (QueryRemote.new_mcp_client number env
              (QueryRemote.arg_app_url a ++ "/mcp")) as [e|];
    [reflexivity|exact I].
Qed.

(** When step 6 is reached and the job trigger cannot be read (the call
    raises, its content is empty, its text does not decode, or the document
    has no [get]), the run reports that exception and ends with status 1. *)
Theorem unreadable_trigger_answer_exits_1 :
  forall (a : QueryRemote.arguments) (env : QueryRemote.remote number)
         (id : Z) (st5 : QueryRemote.state) (e : exn),
  QueryRemote.steps1to5 number literal py_eq py_str json_loads a env
    (snd (QueryRemote.header number a env QueryRemote.initial)) = (inr tt, st5) ->
  QueryRemote.job_id_given a = Some id ->
  (let answer :=
     ScriptRun.payload number json_loads
       (QueryRemote.remote_call_tool number env (QueryRemote.calls st5)
          "trigger_job_run"
          [("job_id", QueryRemote.num number literal (str_int id))]) in
   answer = inl e \/
   exists data, answer = inr data /\
                QueryRemote.dict_get number data "success" = inl e) ->
  QueryRemote.main number literal py_eq py_str num_truthy json_loads a env
  = (1,
     (QueryRemote.stdout st5 ++ ScriptRun.trigger_lines id
      ++ ScriptRun.error_lines e)%list).
Proof.
  intros a env id st5 e H5 Hid Hbad.
  rewrite (main_after_steps1to5 a env st5 H5).
  unfold QueryRemote.step6. rewrite Hid.
  unfold QueryRemote.bind, QueryRemote.print, QueryRemote.call_tool,
    QueryRemote.lift, ScriptRun.trigger_lines.
  cbn [QueryRemote.calls QueryRemote.stdout].
  cbv zeta in Hbad. unfold ScriptRun.payload in Hbad.
  destruct (QueryRemote.remote_call_tool number env (QueryRemote.calls st5)
              "trigger_job_run" _) as [e0|result].
  { destruct Hbad as [[= ->]|(d & [=] & _)].
    cbn [QueryRemote.stdout]. repeat rewrite <- app_assoc. reflexivity. }
  destruct (QueryRemote.content0_text result) as [e0|text].
  { destruct Hbad as [[= ->]|(d & [=] & _)].
    cbn [QueryRemote.stdout]. repeat rewrite <- app_assoc. reflexivity. }
  destruct (json_loads text) as [e0|data].
  { destruct Hbad as [[= ->]|(d & [=] & _)].
    cbn [QueryRemote.stdout]. repeat rewrite <- app_assoc. reflexivity. }
  destruct Hbad as [[=]|(d & [= <-] & Hget)]. rewrite Hget.
  cbn [QueryRemote.stdout]. repeat rewrite <- app_assoc. reflexivity.
Qed.

(** When step 6 is reached and the document that comes back is an object
    with a truthy [success], the run prints the run id (["None"] as [str]
    renders a missing one), the run url only if the document has that key,
    then the success banner, and ends with status 0. *)
Theorem successful_trigger_output :
  forall (a : QueryRemote.arguments) (env : QueryRemote.remote number)
         (id : Z) (st5 : QueryRemote.state)
         (fields : list (string * QueryRemote.json number))
         (v : QueryRemote.json number),
  QueryRemote.steps1to5 number literal py_eq py_str json_loads a env
    (snd (QueryRemote.header number a env QueryRemote.initial)) = (inr tt, st5) ->
  QueryRemote.job_id_given a = Some id ->
  ScriptRun.payload number json_loads
    (QueryRemote.remote_call_tool number env (QueryRemote.calls st5)
       "trigger_job_run"
       [("job_id", QueryRemote.num number literal (str_int id))])
  = inr (QueryRemote.JObj fields) ->
  QueryRemote.lookup number "success" fields = Some v ->
  QueryRemote.truthy number num_truthy v = true ->
  QueryRemote.main number literal py_eq py_str num_truthy json_loads a env
  = (0,
     (QueryRemote.stdout st5 ++ ScriptRun.trigger_lines id
      ++ ["  ✓ Job triggered successfully!";
          ("  Run ID: "
           ++ py_str (match QueryRemote.lookup number "run_id" fields with
                      | Some run_id => run_id
                      | None => QueryRemote.JNull
                      end))%string]
      ++ match QueryRemote.lookup number "run_page_url" fields with
         | Some url => [("  Run URL: " ++ py_str url)%string]
         | None => []
         end
      ++ [QueryRemote.rule_dash; "✓ trigger_job_run tool tested"; ""]
      ++ QueryRemote.success_banner)%list).
Proof.
  intros a env id st5 fields v H5 Hid Hpay Hsucc Htrue.
  rewrite (main_after_steps1to5 a env st5 H5).
  unfold QueryRemote.step6. rewrite Hid.
  unfold QueryRemote.bind, QueryRemote.print, QueryRemote.call_tool,
    QueryRemote.lift, QueryRemote.ret, ScriptRun.trigger_lines.
  cbn [QueryRemote.calls QueryRemote.stdout].
  unfold ScriptRun.payload in Hpay.
  destruct (QueryRemote.remote_call_tool number env (QueryRemote.calls st5)
              "trigger_job_run" _) as [e0|result]; [discriminate|].
  destruct (QueryRemote.content0_text result) as [e0|text]; [discriminate|].
  rewrite Hpay.
  cbn [QueryRemote.dict_get QueryRemote.contains]. rewrite Hsucc, Htrue.
  cbn [QueryRemote.calls QueryRemote.stdout].
  destruct (QueryRemote.lookup number "run_id" fields);
    destruct (QueryRemote.lookup number "run_page_url" fields);
    cbn [QueryRemote.calls QueryRemote.stdout];
    repeat rewrite <- app_assoc; reflexivity.
Qed.

End ScriptMore.

Lemma unreadable_trigger_answer_exits_1_witness :
  QueryRemote.demo_main QueryRemote.demo_args
    (ScriptRun.remote_with_trigger
       (inl (mkExn "McpError" "Connection closed" true)))
  = (1,
     (QueryRemote.stdout QueryRemote.demo_state_before_trigger
      ++ ScriptRun.trigger_lines 999999999
      ++ ScriptRun.error_lines (mkExn "McpError" "Connection closed" true))%list).
Proof.
  unfold QueryRemote.demo_main.
  apply (unreadable_trigger_answer_exits_1 string (fun s => s)
           QueryRemote.demo_py_eq QueryRemote.demo_py_str
           QueryRemote.demo_num_truthy QueryRemote.demo_json_loads
           QueryRemote.demo_args
           (ScriptRun.remote_with_trigger
              (inl (mkExn "McpError" "Connection closed" true)))
           999999999 QueryRemote.demo_state_before_trigger).
  - vm_compute. reflexivity.
  - reflexivity.
  - left. reflexivity.
Defined.

Example run_with_payload_lacking_success :
  let (status, out) :=
    QueryRemote.demo_main QueryRemote.demo_args
      (ScriptRun.remote_with_trigger (inr (QueryRemote.text_result "health"))) in
  status = 0 /\
  QueryRemote.last_lines 8 out
  = ["  ✗ Failed to trigger job"; "  Error: None";
     QueryRemote.rule_dash; "✓ trigger_job_run tool tested"; "";
     QueryRemote.rule_eq; "✓ All Tests Passed!"; QueryRemote.rule_eq].
Proof. vm_compute. split; reflexivity. Qed.

Lemma successful_trigger_output_witness :
  QueryRemote.demo_main QueryRemote.demo_args
    (ScriptRun.remote_with_trigger (inr (QueryRemote.text_result "job started")))
  = (0,
     (QueryRemote.stdout QueryRemote.demo_state_before_trigger
      ++ ScriptRun.trigger_lines 999999999
      ++ ["  ✓ Job triggered successfully!"; "  Run ID: 42"]
      ++ ["  Run URL: https://example.cloud.databricks.com/jobs/7/runs/42"]
      ++ [QueryRemote.rule_dash; "✓ trigger_job_run tool tested"; ""]
      ++ QueryRemote.success_banner)%list).
Proof.
  unfold QueryRemote.demo_main.
  apply (successful_trigger_output string (fun s => s)
           QueryRemote.demo_py_eq QueryRemote.demo_py_str
           QueryRemote.demo_num_truthy QueryRemote.demo_json_loads
           QueryRemote.demo_args
           (ScriptRun.remote_with_trigger
              (inr (QueryRemote.text_result "job started")))
           999999999 QueryRemote.demo_state_before_trigger
           [("success", QueryRemote.JBool true);
            ("run_id", QueryRemote.JInt "42");
            ("run_page_url",
             QueryRemote.JStr "https://example.cloud.databricks.com/jobs/7/runs/42")]
           (QueryRemote.JBool true)).
  - vm_compute. reflexivity.
  - reflexivity.
  - reflexivity.
  - reflexivity.
  - reflexivity.
Defined.

Section OutputGrows.

Variable number : Type.
Variable literal : string -> number.
Variable py_eq : QueryRemote.json number -> QueryRemote.json number -> bool.
Variable py_str : QueryRemote.json number -> string.
Variable num_truthy : number -> bool.
Variable json_loads : string -> exn + QueryRemote.json number.







End OutputGrows.

(** * Properties of the tests *)

Section TestFacts.

Variable number : Type.
Variable literal : string -> number.
Variable py_eq : QueryRemote.json number -> QueryRemote.json number -> bool.
Variable py_str : QueryRemote.json number -> string.
Variable json_loads : string -> exn + QueryRemote.json number.

Ltac run_test :=
  unfold Tests.test_add_numbers, Tests.test_trigger_job_run_error_handling,
    Tests.checked_call, Tests.assert_entry, Tests.assert, Tests.mcp_client,
    Tests.t_bind, Tests.t_call_tool, Tests.t_lift, Tests.t_ret, Tests.t_raise,
    Tests.t_print, Tests.first_text, Tests.answers_with, Tests.has_entry,
    Tests.operands;
  cbn [QueryRemote.calls QueryRemote.stdout].

(** A branch in which a step of the test raised. *)
Ltac failing_branch :=
  split;
  [ discriminate
  | let H := fresh in intros H; decompose [ex and] H; clear H; congruence ].

Ltac split_cases :=
  repeat match goal with
         | |- context [match ?x with _ => _ end] =>
             lazymatch x with
             | context [match _ with _ => _ end] => fail
             | _ => destruct x eqn:?
             end;
             cbn [QueryRemote.calls QueryRemote.stdout fst snd];
             try solve [failing_branch]
         end.

(** [test_add_numbers] passes exactly when the three calls of [add_numbers]
    are answered with documents in which [result], [a] and [b] are 8.0, 5.0
    and 3.0 for the first, 12.8, 10.5 and 2.3 for the second, and [result]
    is 5.0 for the third, whose [a] and [b] are not looked at. *)
Theorem test_add_numbers_passes_iff :
  forall (url : string) (env : Tests.server number) (st : QueryRemote.state),
  fst (Tests.test_add_numbers number literal py_eq json_loads url env st)
    = inr tt
  <->
  Tests.connect number env (url ++ "/mcp") = None /\
  exists d1 d2 d3,
    Tests.answers_with number json_loads env (QueryRemote.calls st)
      "add_numbers" (Tests.operands number literal "5" "3") d1 /\
    Tests.has_entry number literal py_eq d1 "result" "8.0" /\
    Tests.has_entry number literal py_eq d1 "a" "5.0" /\
    Tests.has_entry number literal py_eq d1 "b" "3.0" /\
    Tests.answers_with number json_loads env (S (QueryRemote.calls st))
      "add_numbers" (Tests.operands number literal "10.5" "2.3") d2 /\
    Tests.has_entry number literal py_eq d2 "result" "12.8" /\
    Tests.has_entry number literal py_eq d2 "a" "10.5" /\
    Tests.has_entry number literal py_eq d2 "b" "2.3" /\
    Tests.answers_with number json_loads env (S (S (QueryRemote.calls st)))
      "add_numbers" (Tests.operands number literal "-5" "10") d3 /\
    Tests.has_entry number literal py_eq d3 "result" "5.0".
Proof.
  intros url env st. run_test. split_cases.
  subst. split; [intros _|reflexivity].
  split; [reflexivity|].
  do 3 eexists.
  repeat match goal with
         | |- _ /\ _ => split
         | |- exists _, _ => eexists
         end; first [reflexivity|eassumption].
Qed.

(** [test_trigger_job_run_error_handling] passes exactly when the call for
    job 999999999 is answered with an object whose [success] is the boolean
    [False] itself, which has an [error] entry, and whose [job_id] equals
    999999999. *)
Theorem test_trigger_error_handling_passes_iff :
  forall (url : string) (env : Tests.server number) (st : QueryRemote.state),
  fst (Tests.test_trigger_job_run_error_handling number literal py_eq py_str
         json_loads url env st) = inr tt
  <->
  Tests.connect number env (url ++ "/mcp") = None /\
  exists fields,
    Tests.answers_with number json_loads env (QueryRemote.calls st)
      "trigger_job_run"
      [("job_id", QueryRemote.num number literal "999999999")]
      (QueryRemote.JObj fields) /\
    QueryRemote.lookup number "success" fields
      = Some (QueryRemote.JBool false) /\
    (exists err, QueryRemote.lookup number "error" fields = Some err) /\
    exists v,
      QueryRemote.lookup number "job_id" fields = Some v /\
      py_eq v (QueryRemote.num number literal "999999999") = true.
Proof.
  intros url env st. run_test.
  unfold QueryRemote.subscript, QueryRemote.contains, Tests.is_False.
  split_cases.
  subst. split; [intros _|reflexivity].
  split; [reflexivity|].
  repeat match goal with
         | |- _ /\ _ => split
         | |- exists _, _ => eexists
         end; first [reflexivity|eassumption].
Qed.

(** The loop of [test_call_tools]: when it ends normally, every tool of the
    list outside the skip list was called without arguments and answered
    with a result. *)
Lemma call_tools_loop_sound (env : Tests.server number) (l : list QueryRemote.tool) :
  forall st,
  fst (Tests.t_for_each number l
         (fun t =>
            if QueryRemote.in_list (QueryRemote.name t) QueryRemote.skipped_tools
            then Tests.t_ret number tt
            else
              Tests.t_bind number (Tests.t_call_tool number (QueryRemote.name t) [])
                (fun result =>
                   Tests.assert number
                     (match result with Some _ => true | None => false end)))
         env st) = inr tt ->
  forall t, In t l ->
    QueryRemote.in_list (QueryRemote.name t) QueryRemote.skipped_tools = false ->
    exists n r,
      Tests.server_call_tool number env n (QueryRemote.name t) [] = inr (Some r).
Proof.
  induction l as [|x l IH]; intros st Hrun t Hin Hskip; [destruct Hin|].
  cbn [Tests.t_for_each] in Hrun. unfold Tests.t_bind at 1 in Hrun.
  destruct (QueryRemote.in_list (QueryRemote.name x) QueryRemote.skipped_tools)
    eqn:Hx.
  - cbn in Hrun. destruct Hin as [->|Hin]; [congruence|].
    now apply (IH st Hrun t Hin Hskip).
  - unfold Tests.t_bind at 1, Tests.t_call_tool, Tests.assert in Hrun.
    destruct (Tests.server_call_tool number env (QueryRemote.calls st)
                (QueryRemote.name x) []) as [e|[r|]] eqn:Hcall;
      cbn in Hrun; try discriminate.
    destruct Hin as [->|Hin].
    + now exists (QueryRemote.calls st), r.
    + now apply (IH _ Hrun t Hin Hskip).
Qed.

(** When [test_call_tools] passes, the tools were listed, and every listed
    tool other than [add_numbers] and [trigger_job_run] was called without
    arguments and returned a result that is not [None]. *)
Theorem test_call_tools_passes_only_if_all_answer :
  forall (url : string) (env : Tests.server number) (st : QueryRemote.state),
  fst (Tests.test_call_tools number url env st) = inr tt ->
  Tests.connect number env (url ++ "/mcp") = None /\
  exists tools,
    Tests.server_list_tools number env = inr tools /\
    forall t, In t (QueryRemote.items tools) ->
      QueryRemote.in_list (QueryRemote.name t) QueryRemote.skipped_tools = false ->
      exists n r,
        Tests.server_call_tool number env n (QueryRemote.name t) []
        = inr (Some r).
Proof.
  intros url env st Hrun.
  unfold Tests.test_call_tools in Hrun.
  unfold Tests.t_bind at 1, Tests.mcp_client in Hrun.
  destruct (Tests.connect number env (url ++ "/mcp")) as [e|]; [discriminate|].
  split; [reflexivity|].
  unfold Tests.t_bind at 1, Tests.t_list_tools in Hrun.
  destruct (Tests.server_list_tools number env) as [e|tools]; [discriminate|].
  exists tools. split; [reflexivity|].
  now apply (call_tools_loop_sound env (QueryRemote.items tools) st).
Qed.

End TestFacts.

Lemma test_call_tools_passes_only_if_all_answer_witness :
  Tests.connect string Tests.demo_server (Tests.demo_test_url ++ "/mcp") = None /\
  exists tools,
    Tests.server_list_tools string Tests.demo_server = inr tools /\
    forall t, In t (QueryRemote.items tools) ->
      QueryRemote.in_list (QueryRemote.name t) QueryRemote.skipped_tools = false ->
      exists n r,
        Tests.server_call_tool string Tests.demo_server n (QueryRemote.name t) []
        = inr (Some r).
Proof.
  apply (test_call_tools_passes_only_if_all_answer string Tests.demo_test_url
           Tests.demo_server QueryRemote.initial).
  vm_compute. reflexivity.
Defined.

Example demo_server_passes_test_add_numbers :
  fst (Tests.test_add_numbers string (fun s => s) QueryRemote.demo_py_eq
         QueryRemote.demo_json_loads Tests.demo_test_url Tests.demo_server
         QueryRemote.initial) = inr tt.
Proof. vm_compute. reflexivity. Qed.

Example demo_server_passes_test_trigger_error_handling :
  Tests.test_trigger_job_run_error_handling string (fun s => s)
    QueryRemote.demo_py_eq QueryRemote.demo_py_str QueryRemote.demo_json_loads
    Tests.demo_test_url Tests.demo_server QueryRemote.initial
  = (inr tt,
     QueryRemote.mkState 1
       ["Error message (expected): Job 999999999 does not exist"]).
Proof. vm_compute. reflexivity. Qed.

Example demo_server_passes_test_list_tools :
  Tests.test_list_tools string Tests.demo_test_url Tests.demo_server
    QueryRemote.initial
  = (inr tt,
     QueryRemote.mkState 0
       ["name: health"; "description: Check server health";
        "name: add_numbers"; "description: Add two numbers";
        "name: trigger_job_run"; "description: Trigger a job run"]).
Proof. vm_compute. reflexivity. Qed.

(** * The exit status of the script *)

Section ExitCode.

Variable number : Type.
Variable literal : string -> number.
Variable py_eq : QueryRemote.json number -> QueryRemote.json number -> bool.
Variable py_str : QueryRemote.json number -> string.
Variable num_truthy : number -> bool.
Variable json_loads : string -> exn + QueryRemote.json number.

Ltac run_script :=
  unfold QueryRemote.bind, QueryRemote.print, QueryRemote.call_tool,
    QueryRemote.lift, QueryRemote.ret, QueryRemote.raise,
    QueryRemote.WorkspaceClient, QueryRemote.DatabricksMCPClient,
    QueryRemote.list_tools;
  cbn [QueryRemote.calls QueryRemote.stdout fst snd].

(** Steps 1 to 3 end normally exactly when both clients are made and the
    tools are listed; they call no tool. *)
Lemma steps1to3_spec (a : QueryRemote.arguments)
    (env : QueryRemote.remote number) (st : QueryRemote.state)
    (tools : QueryRemote.tool_seq) :
  (fst (QueryRemote.steps1to3 number a env st) = inr tools <->
   QueryRemote.new_workspace_client number env
     (QueryRemote.arg_host a) (QueryRemote.arg_token a) = None /\
   QueryRemote.new_mcp_client number env (QueryRemote.arg_app_url a ++ "/mcp")
     = None /\
   QueryRemote.remote_list_tools number env = inr tools) /\
  QueryRemote.calls (snd (QueryRemote.steps1to3 number a env st))
    = QueryRemote.calls st.
Proof.
  unfold QueryRemote.steps1to3. run_script.
  destruct (QueryRemote.new_workspace_client number env _ _) as [e|];
    cbn [QueryRemote.calls QueryRemote.stdout fst snd].
  { split; [|reflexivity]. split; [discriminate|]. intros (H & _). discriminate. }
  destruct (QueryRemote.new_mcp_client number env _) as [e|];
    cbn [QueryRemote.calls QueryRemote.stdout fst snd].
  { split; [|reflexivity]. split; [discriminate|].
    intros (_ & H & _). discriminate. }
  destruct (QueryRemote.remote_list_tools number env) as [e|tools'];
    cbn [QueryRemote.calls QueryRemote.stdout fst snd].
  { split; [|reflexivity]. split; [discriminate|].
    intros (_ & _ & H). discriminate. }
  split; [|reflexivity]. split.
  - intros [= ->]. auto.
  - intros (_ & _ & [= ->]). reflexivity.
Qed.

(** A loop that makes one call for each element that [called] picks and
    none for the others ends normally exactly when every call is answered,
    the i-th of them being the i-th call made. *)
Lemma for_each_calls_spec (env : QueryRemote.remote number)
    (f : QueryRemote.tool -> QueryRemote.M number unit)
    (called : QueryRemote.tool -> bool) :
  (forall t st, called t = false -> f t env st = (inr tt, st)) ->
  (forall t st, called t = true ->
     QueryRemote.calls (snd (f t env st)) = S (QueryRemote.calls st) /\
     (fst (f t env st) = inr tt <->
      exists r, QueryRemote.remote_call_tool number env (QueryRemote.calls st)
                  (QueryRemote.name t) [] = inr r)) ->
  forall (l : list QueryRemote.tool) (st : QueryRemote.state),
  (fst (QueryRemote.for_each number l f env st) = inr tt <->
   forall i t, nth_error (filter called l) i = Some t ->
     exists r,
       QueryRemote.remote_call_tool number env (QueryRemote.calls st + i)
         (QueryRemote.name t) [] = inr r) /\
  (fst (QueryRemote.for_each number l f env st) = inr tt ->
   QueryRemote.calls (snd (QueryRemote.for_each number l f env st))
   = (QueryRemote.calls st + List.length (filter called l))%nat).
Proof.
  intros Hskip Hcall. induction l as [|x l IH]; intros st.
  - cbn. split; [|intros _; lia]. split; [|reflexivity].
    intros _ [|i] t H; discriminate.
  - cbn [QueryRemote.for_each filter]. unfold QueryRemote.bind.
    destruct (called x) eqn:Hx.
    + destruct (Hcall x st Hx) as [Hn Hiff].
      destruct (f x env st) as [[e|u] st1]; cbn [fst snd] in *.
      * split; [|discriminate]. split; [discriminate|].
        intros H. destruct (H 0%nat x eq_refl) as [r Hr].
        rewrite Nat.add_0_r in Hr.
        assert (Hbad : @inl exn unit e = inr tt) by (apply Hiff; eauto).
        discriminate.
      * destruct (IH st1) as [IHiff IHcalls]. rewrite Hn in IHiff, IHcalls.
        split.
        -- rewrite IHiff. split.
           ++ intros H [|i] t Hi.
              ** cbn in Hi. injection Hi as <-. rewrite Nat.add_0_r.
                 apply Hiff. now destruct u.
              ** rewrite Nat.add_succ_r. apply (H i t Hi).
           ++ intros H i t Hi. specialize (H (S i) t Hi).
              now rewrite Nat.add_succ_r in H.
        -- intros Hrun. rewrite (IHcalls Hrun). cbn [List.length]. lia.
    + rewrite (Hskip x st Hx). apply IH.
Qed.

(** Step 4 ends normally exactly when every listed tool outside the skip
    list answers its call; it then has made one call for each of them. *)
Lemma step4_spec (tools : QueryRemote.tool_seq)
    (env : QueryRemote.remote number) (st : QueryRemote.state) :
  (fst (QueryRemote.step4 number tools env st) = inr tt <->
   forall i t,
     nth_error (ScriptOutcome.called_tools tools) i = Some t ->
     exists r,
       QueryRemote.remote_call_tool number env (QueryRemote.calls st + i)
         (QueryRemote.name t) [] = inr r) /\
  (fst (QueryRemote.step4 number tools env st) = inr tt ->
   QueryRemote.calls (snd (QueryRemote.step4 number tools env st))
   = (QueryRemote.calls st
      + List.length (ScriptOutcome.called_tools tools))%nat).
Proof.
  unfold ScriptOutcome.called_tools.
  remember (QueryRemote.step4 number tools env st) as run eqn:Hrun.
  unfold QueryRemote.step4 in Hrun.
  unfold QueryRemote.bind at 1 2 in Hrun. unfold QueryRemote.print at 1 in Hrun.
  match type of Hrun with
  | context [QueryRemote.for_each number _ ?f env ?s1] =>
      destruct (for_each_calls_spec env f
                  (fun t => negb (QueryRemote.in_list (QueryRemote.name t)
                                    QueryRemote.skipped_tools)))
        with (l := QueryRemote.items tools) (st := s1) as [Hiff Hcalls];
      [| |destruct (QueryRemote.for_each number (QueryRemote.items tools) f
                      env s1) as [[e|u] st1]]
  end.
  - intros t s Ht. apply negb_false_iff in Ht. now rewrite Ht.
  - intros t s Ht. apply negb_true_iff in Ht. rewrite Ht. run_script.
    destruct (QueryRemote.remote_call_tool number env (QueryRemote.calls s)
                (QueryRemote.name t) []) as [e|r]; cbn [fst snd QueryRemote.calls].
    + split; [reflexivity|]. split; [discriminate|]. intros [r H]. discriminate.
    + split; [reflexivity|]. split; [eauto|reflexivity].
  - subst run. cbn [fst snd QueryRemote.calls] in *.
    split; [|discriminate]. split; [discriminate|].
    intros H. apply Hiff in H. discriminate.
  - destruct u. revert Hrun. run_script. intros ->.
    cbn [fst snd QueryRemote.calls] in *. split.
    + split; [intros _; now apply Hiff|reflexivity].
    + intros _. now apply Hcalls.
Qed.
(** One round of the loop over the test cases. *)
Lemma add_numbers_case_spec (i : Z) (x y expected : string)
    (env : QueryRemote.remote number) (st : QueryRemote.state) :
  QueryRemote.calls
    (snd (QueryRemote.add_numbers_case number literal py_eq py_str json_loads
            (i, (x, y, expected)) env st)) = S (QueryRemote.calls st) /\
  (fst (QueryRemote.add_numbers_case number literal py_eq py_str json_loads
          (i, (x, y, expected)) env st) = inr tt <->
   ScriptOutcome.case_passes number literal py_eq json_loads env
     (QueryRemote.calls st) (x, y, expected)).
Proof.
  unfold QueryRemote.add_numbers_case, ScriptOutcome.case_passes,
    ScriptRun.payload.
  run_script.
  destruct (QueryRemote.remote_call_tool number env (QueryRemote.calls st)
              "add_numbers" _) as [e|result].
  { split; [reflexivity|]. split; [discriminate|].
    intros (d & v & H & _). discriminate. }
  destruct (QueryRemote.content0_text result) as [e|text].
  { split; [reflexivity|]. split; [discriminate|].
    intros (d & v & H & _). discriminate. }
  destruct (json_loads text) as [e|data].
  { split; [reflexivity|]. split; [discriminate|].
    intros (d & v & H & _). discriminate. }
  destruct (QueryRemote.subscript number data "result") as [e|actual] eqn:Hsub.
  { split; [reflexivity|]. split; [discriminate|].
    intros (d & v & [= <-] & Hv & _). rewrite Hsub in Hv. discriminate. }
  destruct (py_eq actual (QueryRemote.num number literal expected)) eqn:Heq.
  - split; [reflexivity|]. split; [|reflexivity].
    intros _. exists data, actual. now repeat split.
  - split; [reflexivity|]. split; [discriminate|].
    intros (d & v & [= <-] & Hv & Hp). rewrite Hsub in Hv.
    injection Hv as <-. rewrite Heq in Hp. discriminate.
Qed.

(** Step 5 ends normally exactly when the three test cases pass, each on
    the next call; it then has made three calls. *)
Lemma step5_spec (env : QueryRemote.remote number) (st : QueryRemote.state) :
  (fst (QueryRemote.step5 number literal py_eq py_str json_loads env st)
     = inr tt <->
   forall k c,
     nth_error QueryRemote.test_cases k = Some c ->
     ScriptOutcome.case_passes number literal py_eq json_loads env
       (QueryRemote.calls st + k) c) /\
  (fst (QueryRemote.step5 number literal py_eq py_str json_loads env st)
     = inr tt ->
   QueryRemote.calls
     (snd (QueryRemote.step5 number literal py_eq py_str json_loads env st))
   = (QueryRemote.calls st + 3)%nat).
Proof.
  remember (QueryRemote.step5 number literal py_eq py_str json_loads env st)
    as run eqn:Hrun.
  unfold QueryRemote.step5 in Hrun.
  cbn [QueryRemote.enumerate QueryRemote.test_cases QueryRemote.for_each] in Hrun.
  unfold QueryRemote.bind at 1 2 3 in Hrun.
  unfold QueryRemote.print at 1 2 in Hrun.
  unfold QueryRemote.bind at 1 in Hrun.
  match type of Hrun with
  | context [QueryRemote.add_numbers_case _ _ _ _ _ ?it env ?s1] =>
      destruct (add_numbers_case_spec 1 "5" "3" "8.0" env s1) as [Hn1 Hp1];
      destruct (QueryRemote.add_numbers_case number literal py_eq py_str
                  json_loads it env s1) as [[e1|u1] st1]
  end; cbn [fst snd QueryRemote.calls] in *.
  { subst run. cbn [fst snd]. split; [|discriminate]. split; [discriminate|].
    intros H. specialize (H 0%nat _ eq_refl). rewrite Nat.add_0_r in H.
    apply Hp1 in H. discriminate. }
  unfold QueryRemote.bind at 1 in Hrun.
  match type of Hrun with
  | context [QueryRemote.add_numbers_case _ _ _ _ _ ?it env st1] =>
      destruct (add_numbers_case_spec (1 + 1) "10.5" "2.3" "12.8" env st1)
        as [Hn2 Hp2];
      destruct (QueryRemote.add_numbers_case number literal py_eq py_str
                  json_loads it env st1) as [[e2|u2] st2]
  end; cbn [fst snd QueryRemote.calls] in *.
  { subst run. cbn [fst snd]. split; [|discriminate]. split; [discriminate|].
    intros H. specialize (H 1%nat _ eq_refl).
    rewrite Hn1 in Hp2. rewrite Nat.add_1_r in H. apply Hp2 in H.
    discriminate. }
  unfold QueryRemote.bind at 1 in Hrun.
  match type of Hrun with
  | context [QueryRemote.add_numbers_case _ _ _ _ _ ?it env st2] =>
      destruct (add_numbers_case_spec (1 + 1 + 1) "-5" "10" "5.0" env st2)
        as [Hn3 Hp3];
      destruct (QueryRemote.add_numbers_case number literal py_eq py_str
                  json_loads it env st2) as [[e3|u3] st3]
  end; cbn [fst snd QueryRemote.calls] in *.
  { subst run. cbn [fst snd]. split; [|discriminate]. split; [discriminate|].
    intros H. specialize (H 2%nat _ eq_refl).
    rewrite Hn2, Hn1 in Hp3.
    replace (S (S (QueryRemote.calls st))) with (QueryRemote.calls st + 2)%nat
      in Hp3 by lia.
    apply Hp3 in H. discriminate. }
  destruct u1, u2, u3. revert Hrun. run_script. intros ->.
  cbn [fst snd QueryRemote.calls]. split; [|intros _; lia].
  split; [intros _|reflexivity].
  intros [|[|[|k]]] c Hk; cbn in Hk.
  - injection Hk as <-. rewrite Nat.add_0_r. now apply Hp1.
  - injection Hk as <-. rewrite Hn1 in Hp2. rewrite Nat.add_1_r.
    now apply Hp2.
  - injection Hk as <-. rewrite Hn2, Hn1 in Hp3.
    replace (QueryRemote.calls st + 2)%nat with (S (S (QueryRemote.calls st)))
      by lia.
    now apply Hp3.
  - destruct k; discriminate.
Qed.

(** Step 6 ends normally exactly when no job id is given, or the answer
    of the job trigger can be read. *)
Lemma step6_spec (a : QueryRemote.arguments)
    (env : QueryRemote.remote number) (st : QueryRemote.state) :
  fst (QueryRemote.step6 number literal py_eq py_str num_truthy json_loads
         a env st) = inr tt <->
  ScriptOutcome.trigger_readable number literal json_loads a env
    (QueryRemote.calls st).
Proof.
  unfold QueryRemote.step6, ScriptOutcome.trigger_readable, ScriptRun.payload.
  destruct (QueryRemote.job_id_given a) as [id|]; [|now split].
  run_script.
  destruct (QueryRemote.remote_call_tool number env (QueryRemote.calls st)
              "trigger_job_run" _) as [e|result].
  { split; [discriminate|]. intros (d & v & H & _). discriminate. }
  destruct (QueryRemote.content0_text result) as [e|text].
  { split; [discriminate|]. intros (d & v & H & _). discriminate. }
  destruct (json_loads text) as [e|data].
  { split; [discriminate|]. intros (d & v & H & _). discriminate. }
  destruct (QueryRemote.dict_get number data "success") as [e|v] eqn:Hget.
  { split; [discriminate|].
    intros (d & v & [= <-] & Hv). rewrite Hget in Hv. discriminate. }
  split; [intros _; now exists data, v|intros _].
  destruct data; try discriminate.
  cbn [QueryRemote.dict_get QueryRemote.contains].
  destruct (QueryRemote.truthy number num_truthy v);
    destruct (QueryRemote.lookup number "run_id" fields);
    destruct (QueryRemote.lookup number "run_page_url" fields);
    destruct (QueryRemote.lookup number "error" fields); reflexivity.
Qed.

(** The body of the [try] statement ends normally exactly when every step
    completes. *)
Lemma body_completes_iff (a : QueryRemote.arguments)
    (env : QueryRemote.remote number) :
  QueryRemote.body_result number literal py_eq py_str num_truthy json_loads
    a env = inr tt <->
  ScriptOutcome.every_step_completes number literal py_eq json_loads a env.
Proof.
  unfold QueryRemote.body_result, ScriptOutcome.every_step_completes.
  assert (Hh : QueryRemote.header number a env QueryRemote.initial
               = (inr tt, QueryRemote.mkState 0 (ScriptRun.header_lines a)))
    by reflexivity.
  rewrite Hh. cbn [snd].
  set (st0 := QueryRemote.mkState 0 (ScriptRun.header_lines a)).
  unfold QueryRemote.try_body, QueryRemote.steps1to5.
  unfold QueryRemote.bind at 1 2.
  pose proof (fun tools => steps1to3_spec a env st0 tools) as H3.
  destruct (QueryRemote.steps1to3 number a env st0) as [[e|tools] st3];
    cbn [fst snd] in *.
  { split; [discriminate|]. intros (Hws & Hmcp & tools & Hl & _).
    destruct (H3 tools) as [[_ Hback] _].
    assert (Hbad : @inl exn QueryRemote.tool_seq e = inr tools)
      by (apply Hback; auto).
    discriminate. }
  destruct (H3 tools) as [[Hfwd _] Hc3]. destruct (Hfwd eq_refl) as (Hws & Hmcp & Hl).
  clear H3 Hfwd. change (QueryRemote.calls st0) with 0%nat in Hc3.
  unfold QueryRemote.bind at 1.
  destruct (step4_spec tools env st3) as [H4 Hc4]. rewrite Hc3 in H4, Hc4.
  cbn [Nat.add] in H4, Hc4.
  destruct (QueryRemote.step4 number tools env st3) as [[e|u4] st4];
    cbn [fst snd] in *.
  { split; [discriminate|]. intros (_ & _ & tools' & Hl' & Hcalls & _).
    rewrite Hl in Hl'. injection Hl' as <-.
    apply H4 in Hcalls. discriminate. }
  destruct u4. specialize (Hc4 eq_refl).
  destruct (step5_spec env st4) as [H5 Hc5]. rewrite Hc4 in H5, Hc5.
  destruct (QueryRemote.step5 number literal py_eq py_str json_loads env st4)
    as [[e|u5] st5]; cbn [fst snd] in *.
  { split; [discriminate|]. intros (_ & _ & tools' & Hl' & _ & Hcases & _).
    rewrite Hl in Hl'. injection Hl' as <-.
    apply H5 in Hcases. discriminate. }
  destruct u5. specialize (Hc5 eq_refl).
  unfold QueryRemote.bind at 1.
  pose proof (step6_spec a env st5) as H6. rewrite Hc5 in H6.
  destruct (QueryRemote.step6 number literal py_eq py_str num_truthy json_loads
              a env st5) as [[e|u6] st6]; cbn [fst snd] in *.
  { split; [discriminate|]. intros (_ & _ & tools' & Hl' & _ & _ & Htrig).
    rewrite Hl in Hl'. injection Hl' as <-.
    apply H6 in Htrig. discriminate. }
  rewrite banner_printed. cbn [fst].
  split; [intros _|reflexivity].
  split; [assumption|]. split; [assumption|].
  exists tools. split; [assumption|]. split; [now apply H4|].
  split; [now apply H5|]. apply H6. now destruct u6.
Qed.


End ExitCode.


Example every_step_completes_for_demo :
  fst (ScriptOutcome.script string (fun s => s) QueryRemote.demo_py_eq
         QueryRemote.demo_py_str QueryRemote.demo_num_truthy
         QueryRemote.demo_json_loads
         (ScriptOutcome.Parsed QueryRemote.demo_args)
         QueryRemote.demo_remote) = 0.
Proof. vm_compute. reflexivity. Qed.

Example demo_run_completes_every_step :
  ScriptOutcome.every_step_completes string (fun s => s) QueryRemote.demo_py_eq
    QueryRemote.demo_json_loads QueryRemote.demo_args QueryRemote.demo_remote.
Proof.
  apply (body_completes_iff string (fun s => s) QueryRemote.demo_py_eq
           QueryRemote.demo_py_str QueryRemote.demo_num_truthy
           QueryRemote.demo_json_loads).
  vm_compute. reflexivity.
Qed.

Example wrong_sum_run_does_not_complete :
  ~ ScriptOutcome.every_step_completes string (fun s => s)
      QueryRemote.demo_py_eq QueryRemote.demo_json_loads
      QueryRemote.demo_args QueryRemote.wrong_sum_remote.
Proof.
  intros H.
  apply (body_completes_iff string (fun s => s) QueryRemote.demo_py_eq
           QueryRemote.demo_py_str QueryRemote.demo_num_truthy
           QueryRemote.demo_json_loads) in H.
  vm_compute in H. discriminate.
Qed.

Example run_with_bare_number_answers :
  let (status, out) :=
    QueryRemote.main string (fun s => s) QueryRemote.demo_py_eq
      QueryRemote.demo_py_str QueryRemote.demo_num_truthy
      (fun _ => inr (QueryRemote.JInt "7"))
      QueryRemote.demo_args QueryRemote.demo_remote in
  status = 1 /\
  QueryRemote.last_lines 4 out
  = [""; QueryRemote.rule_eq;
     "✗ Error: 'int' object is not subscriptable"; QueryRemote.rule_eq].
Proof. vm_compute. split; reflexivity. Qed.
